(** * Shrimp farming forecast dashboard: the [update_output] callback of app.py

    The callback reads nineteen numeric inputs, builds one feature row per
    forecast day for each of two pre-trained regression models, and turns the
    predicted body weights into cumulative biomass and cumulative revenue.

    Modelling conventions.
    - A value arriving from a numeric input field is a Python [int] or
      [float], or [None]; [number] keeps the int/float distinction and
      [option number] adds [None].
    - numpy float64 arrays are lists of exact rationals ([Q]): rounding of
      IEEE doubles is not modelled, every arithmetic step is the exact one.
      Equality of array entries is therefore [Qeq] ([==]).
    - The two pickled models and Python's [str] on a float are external to
      app.py; they are parameters of the development.
    - Exceptions are values of [result]: [KeyError] for a failed dictionary
      subscript, [IndexError] for a failed array subscript.
    - Dash calls the callback with the click count and one value per input
      field, nineteen in all; the properties are stated for such full
      submissions.
    - numpy arrays are bounded (64-bit integers, IEEE doubles, the memory at
      hand) where lists of integers and rationals are not. The properties
      that state that the callback returns, or which exception it raises,
      are stated for submissions [within_limits], where both take the same
      path; the properties that compare results are stated for all. *)

From Stdlib Require Import ZArith QArith Qround Qabs Lqa Lia.
From Stdlib Require Import Ascii String DecimalString.
From stdpp Require Import base option list gmap strings.

Local Open Scope Z_scope.
Local Open Scope string_scope.
Local Open Scope list_scope.

(** ** Python values and exceptions *)

Inductive number : Type :=
  | PyInt (z : Z)
  | PyFloat (q : Q).

(** The numeric value of a Python number, as numpy sees it when the number
    is stored in or multiplied with a float array. *)
Definition to_Q (v : number) : Q :=
  match v with
  | PyInt z => inject_Z z
  | PyFloat q => q
  end.

(** [int(val)]: the identity on an int, truncation towards zero on a float. *)
Definition py_int (v : number) : Z :=
  match v with
  | PyInt z => z
  | PyFloat q => Z.quot (Qnum q) (Zpos (Qden q))
  end.

(** [v + 1] for a Python number [v]. *)
Definition py_succ (v : number) : number :=
  match v with
  | PyInt z => PyInt (z + 1)
  | PyFloat q => PyFloat (q + 1)
  end.

Inductive exn : Type :=
  | KeyError (key : string)
  | IndexError.

Inductive result (A : Type) : Type :=
  | Ok (a : A)
  | Raise (e : exn).
Arguments Ok {A} a.
Arguments Raise {A} e.

#[export] Instance result_ret : MRet result := fun A a => Ok a.
#[export] Instance result_bind : MBind result := fun A B f m =>
  match m with
  | Ok a => f a
  | Raise e => Raise e
  end.

(** ** Module-level bindings of app.py *)

(** [default_values], in the insertion order of the dictionary literal. *)
Definition default_values : list (string * number) :=
  [ ("days_until_harvest", PyInt 60);
    ("cycle_age_days", PyInt 60);
    ("total_seed", PyInt 100000);
    ("area", PyInt 1000);
    ("total_shrimp", PyInt 95000);
    ("total_weight", PyInt 1500);
    ("feed_quantity", PyInt 1200);
    ("morning_temperature", PyInt 28);
    ("evening_temperature", PyInt 27);
    ("morning_do", PyFloat 7.2);
    ("evening_do", PyFloat 6.8);
    ("morning_salinity", PyInt 35);
    ("evening_salinity", PyInt 34);
    ("morning_pH", PyFloat 7.8);
    ("evening_pH", PyFloat 7.7);
    ("nitrate", PyFloat 0.25);
    ("nitrite", PyFloat 0.02);
    ("alkalinity", PyInt 120);
    ("price_per_kg", PyInt 12) ].

(** Exchange rate from USD to IDR. *)
Definition usd_to_idr : Z := 15000.

(** ** Dictionaries *)

(** [d.keys()] of a dictionary literal. *)
Definition dict_keys (d : list (string * number)) : list string := d.*1.

(** A dictionary built from (key, value) pairs in order: a later pair
    overrides an earlier one with the same key. *)
Definition dict_of (l : list (string * number)) : gmap string number :=
  foldl (fun m kv => <[kv.1 := kv.2]> m) ∅ l.

(** [d[key]]: the subscript raises [KeyError] on an absent key. *)
Definition getitem (d : gmap string number) (key : string) : result number :=
  match d !! key with
  | Some v => Ok v
  | None => Raise (KeyError key)
  end.

(** The value stored for one (key, val) pair of the comprehension on line 93:
    [int(val) if val is not None else default_values[key]]. *)
Definition coerce (key : string) (val : option number) : result number :=
  match val with
  | Some v => Ok (PyInt (py_int v))
  | None => getitem (dict_of default_values) key
  end.

(** The dictionary comprehension of line 93 over
    [zip(default_values.keys(), input_values)]; [zip] stops at the shorter of
    the two sequences. *)
Definition build_inputs (input_values : list (option number))
  : result (gmap string number) :=
  entries ← mapM (fun kv : string * option number =>
                    v ← coerce kv.1 kv.2; mret (kv.1, v))
                 (zip (dict_keys default_values) input_values);
  mret (dict_of entries).

(** ** numpy operations *)

(** [np.arange(start, stop)] with an integer [start] and unit step: numpy
    produces ceil(stop - start) elements start, start+1, ... (none when
    that count is not positive). numpy builds a 64-bit array and raises
    when the count is too large for one; the list built here has no such
    bound, see [within_limits]. *)
Definition np_arange (start : Z) (stop : number) : list Z :=
  (fun i : nat => start + Z.of_nat i) <$>
    seq 0 (Z.to_nat (Qceiling (to_Q stop - inject_Z start))).

(** [np.cumsum]: the first entry is copied, every later entry is the
    previous output plus the current input, from left to right. *)
Fixpoint cumsum_from (acc : Q) (a : list Q) : list Q :=
  match a with
  | [] => []
  | v :: a' => (acc + v)%Q :: cumsum_from (acc + v)%Q a'
  end.

Definition cumsum (a : list Q) : list Q :=
  match a with
  | [] => []
  | v :: a' => v :: cumsum_from v a'
  end.

(** [a[-1]]: the last entry; [IndexError] on an empty array. *)
Definition getlast (a : list Q) : result Q :=
  match last a with
  | Some v => Ok v
  | None => Raise IndexError
  end.

(** ** Feature rows *)

(** The keys subscripted after [day] in a survival-rate row (lines 102-117),
    in order. *)
Definition sr_fields : list string :=
  [ "total_seed"; "area"; "total_shrimp"; "total_weight"; "feed_quantity";
    "morning_temperature"; "evening_temperature"; "morning_do"; "evening_do";
    "morning_salinity"; "evening_salinity"; "morning_pH"; "evening_pH";
    "nitrate"; "nitrite"; "alkalinity" ].

(** The keys subscripted after [day] in a body-weight row (line 123). *)
Definition abw_fields : list string := [ "area"; "feed_quantity" ].

(** One row of the list comprehension: [day] followed by the subscripted
    inputs, evaluated left to right, stored as floats by [np.array]. *)
Definition feature_row (fields : list string) (inputs : gmap string number)
    (day : Z) : result (list Q) :=
  vals ← mapM (getitem inputs) fields;
  mret (inject_Z day :: (to_Q <$> vals)).

Definition features_sr (inputs : gmap string number) (days : list Z)
  : result (list (list Q)) :=
  mapM (feature_row sr_fields inputs) days.

Definition features_abw (inputs : gmap string number) (days : list Z)
  : result (list (list Q)) :=
  mapM (feature_row abw_fields inputs) days.

(** ** The forecast aggregator (lines 127-129) *)

(** [abw_predictions / 1000 * inputs['total_shrimp']]. numpy converts the
    Python int to a double, and raises [OverflowError] when it fits none;
    the product taken here is the exact one, see [within_limits]. *)
Definition daily_biomass (abw_predictions : list Q) (total_shrimp : number)
  : list Q :=
  (fun a => a / 1000 * to_Q total_shrimp)%Q <$> abw_predictions.

(** [daily_biomass * inputs['price_per_kg'] * usd_to_idr] *)
Definition daily_revenue_idr (daily : list Q) (price_per_kg : number)
  : list Q :=
  (fun b => b * to_Q price_per_kg * inject_Z usd_to_idr)%Q <$> daily.

(** ** String formatting *)

Definition digits (n : Z) : list ascii :=
  list_ascii_of_string (NilZero.string_of_uint (N.to_uint (Z.to_N n))).

(** [str(z)] for a Python int. *)
Definition py_str_int (z : Z) : string :=
  NilZero.string_of_int (Z.to_int z).

(** Rounding to the nearest integer, ties to the even one. *)
Definition round_half_even (q : Q) : Z :=
  let f := Qfloor q in
  match (q - inject_Z f ?= 1 # 2)%Q with
  | Lt => f
  | Gt => f + 1
  | Eq => if Z.even f then f else f + 1
  end.

(** A comma after every third digit of a least-significant-first digit
    list, as long as digits remain. *)
Fixpoint group3 (l : list ascii) : list ascii :=
  match l with
  | a :: b :: c :: rest =>
      match rest with
      | [] => l
      | _ :: _ => a :: b :: c :: ","%char :: group3 rest
      end
  | _ => l
  end.

Definition pad2 (n : Z) : list ascii :=
  if (n <? 10)%Z then "0"%char :: digits n else digits n.

(** The format specification [:,.2f]: two decimals, thousands separators,
    a minus sign for a negative value. It is applied to the exact value: a
    double that rounding has moved off a tie, or a negative zero, prints
    differently. *)
Definition format_comma_2f (v : Q) : string :=
  let cents := round_half_even (Qabs v * 100)%Q in
  let sign := match (v ?= 0)%Q with Lt => "-" | _ => "" end in
  sign ++ string_of_list_ascii
            (rev (group3 (rev (digits (cents / 100))))
             ++ "."%char :: pad2 (cents mod 100)).

(** ** Figures *)

(** A [go.Figure] holding one [go.Scatter] trace and a [go.Layout]. *)
Record Figure : Type := mkFigure {
  fig_x : list Z;
  fig_y : list Q;
  fig_mode : string;
  fig_name : string;
  fig_color : string;
  fig_title : string;
  fig_xaxis_title : string;
  fig_yaxis_title : string
}.

(** The five outputs of the callback. *)
Record Outputs : Type := mkOutputs {
  sr_figure : Figure;
  abw_figure : Figure;
  biomass_figure : Figure;
  revenue_figure : Figure;
  revenue_output : string
}.

(** ** The callback *)

Section Callback.

(** [model_sr.predict] and [model_abw.predict]: from a feature matrix to a
    prediction vector. *)
Variables model_sr model_abw : list (list Q) -> list Q.

(** [str] of a Python float, used by an f-string replacement field without
    a format specification. *)
Variable py_str_float : Q -> string.

Definition py_str (v : number) : string :=
  match v with
  | PyInt z => py_str_int z
  | PyFloat q => py_str_float q
  end.

Definition update_output (n_clicks : Z) (input_values : list (option number))
  : result Outputs :=
  inputs ← build_inputs input_values;
  horizon ← getitem inputs "days_until_harvest";
  let days := np_arange 1 (py_succ horizon) in
  rows_sr ← features_sr inputs days;
  let sr_predictions := model_sr rows_sr in
  rows_abw ← features_abw inputs days;
  let abw_predictions := model_abw rows_abw in
  total_shrimp ← getitem inputs "total_shrimp";
  let daily := daily_biomass abw_predictions total_shrimp in
  let cumulative_biomass := cumsum daily in
  price_per_kg ← getitem inputs "price_per_kg";
  let cumulative_revenue_idr := cumsum (daily_revenue_idr daily price_per_kg) in
  let sr_fig :=
    mkFigure days sr_predictions "lines" "Survival Rate" "blue"
      "Predicted Survival Rate Over Time" "Days" "Survival Rate (%)" in
  let abw_fig :=
    mkFigure days abw_predictions "lines" "Average Body Weight" "green"
      "Predicted Average Body Weight Over Time" "Days" "Weight (grams)" in
  let biomass_fig :=
    mkFigure days cumulative_biomass "lines" "Cumulative Biomass" "orange"
      "Cumulative Forecasted Biomass Over Time" "Days"
      "Cumulative Biomass (kg)" in
  let revenue_fig :=
    mkFigure days cumulative_revenue_idr "lines" "Cumulative Revenue (IDR)"
      "purple" "Cumulative Forecasted Revenue Over Time (IDR)" "Days"
      "Cumulative Revenue (IDR)" in
  shown_day ← getitem inputs "days_until_harvest";
  final ← getlast cumulative_revenue_idr;
  mret (mkOutputs sr_fig abw_fig biomass_fig revenue_fig
          ("Forecasted Revenue by Day " ++ py_str shown_day ++ ": IDR "
           ++ format_comma_2f final)).

End Callback.

(** ** Notions used to state the properties *)

(** What the comprehension of line 93 stores for a field whose default is
    [dflt] when the submitted value is [val]. *)
Definition stored (dflt : number) (val : option number) : number :=
  match val with
  | Some v => PyInt (py_int v)
  | None => dflt
  end.

(** The (key, value) pairs of the [inputs] dictionary, in order. *)
Definition entries_of (input_values : list (option number))
  : list (string * number) :=
  zip_with (fun kd val => (kd.1, stored kd.2 val)) default_values input_values.

(** The float stored in a feature matrix for [inputs[key]]. *)
Definition value_of (m : gmap string number) (key : string) : Q :=
  from_option to_Q 0%Q (m !! key).

(** The feature matrix for a list of days: [day] followed by the listed
    fields of the inputs. *)
Definition rows (fields : list string) (m : gmap string number) (days : list Z)
  : list (list Q) :=
  (fun day => inject_Z day :: (value_of m <$> fields)) <$> days.

(** Every key of [default_values] is bound. *)
Definition complete (m : gmap string number) : Prop :=
  forall key, key ∈ dict_keys default_values -> is_Some (m !! key).

(** The sum of the entries 0..d of a series, added from left to right. *)
Definition running_total (a : list Q) (d : nat) : Q :=
  foldl Qplus 0%Q (take (S d) a).

(** The sum of a whole series, added from left to right. *)
Definition total (a : list Q) : Q := foldl Qplus 0%Q a.

(** A predictor returns one prediction per feature row. *)
Definition one_per_row (model : list (list Q) -> list Q) : Prop :=
  forall X, length (model X) = length X.

(** Two submitted values denote the same number (or are both missing). *)
Definition same_value (val val' : option number) : Prop :=
  match val, val' with
  | Some v, Some v' => to_Q v == to_Q v'
  | None, None => True
  | _, _ => False
  end.

(** The effective forecast horizon of a submission. *)
Definition horizon_of (input_values : list (option number)) : Z :=
  match input_values with
  | Some v :: _ => py_int v
  | _ => 60
  end.

(** ** The range of values the model covers

    numpy holds the day series and the feature rows in 64-bit arrays and the
    predictions in IEEE doubles, and all of them take memory in proportion
    to the horizon; converting a Python int that fits no double raises
    [OverflowError], and a day series too long to build raises as well. The
    lists of integers and of rationals used here have no such bounds. A
    property stating that the callback returns, or which exception it
    raises, is therefore stated for submissions within the following
    limits, on which the code and its model take the same path: the integer
    part of every submitted value fits a signed 64-bit integer, and the
    horizon is at most [day_limit] days. *)
Definition int64_min : Z := - 2 ^ 63.

Definition int64_max : Z := 2 ^ 63 - 1.

Definition day_limit : Z := 100000.

Definition fits_int64 (val : option number) : Prop :=
  match val with
  | Some v => int64_min <= py_int v <= int64_max
  | None => True
  end.

Definition within_limits (input_values : list (option number)) : Prop :=
  Forall fits_int64 input_values /\ horizon_of input_values <= day_limit.

(** ** Stub predictors and sample submissions *)

(** A body-weight predictor growing ten grams per day. *)
Definition stub_abw (X : list (list Q)) : list Q :=
  (fun row => 10 * nth 0 row 0)%Q <$> X.

(** A survival-rate predictor echoing the morning dissolved-oxygen column. *)
Definition stub_sr (X : list (list Q)) : list Q :=
  (fun row => nth 8 row 0)%Q <$> X.

(** A float printer with two decimals. *)
Definition stub_str_float (q : Q) : string := format_comma_2f q.

(** Every field left empty. *)
Definition all_missing : list (option number) := replicate 19 None.

(** Three days, one hundred shrimp, one dollar per kilogram. *)
Definition three_days : list (option number) :=
  <[0%nat := Some (PyInt 3)]>
    (<[4%nat := Some (PyInt 100)]> (<[18%nat := Some (PyInt 1)]> all_missing)).

(** As [three_days], with a negative shrimp count. *)
Definition negative_stock : list (option number) :=
  <[4%nat := Some (PyInt (-100))]> three_days.

(** As [three_days], with a horizon of zero days. *)
Definition zero_days : list (option number) :=
  <[0%nat := Some (PyInt 0)]> three_days.

(** As [three_days], with 7.2 typed into the morning dissolved-oxygen field. *)
Definition typed_morning_do : list (option number) :=
  <[9%nat := Some (PyFloat 7.2)]> three_days.

(** Two submissions of the same numbers, written differently. *)
Definition halves : list (option number) :=
  <[9%nat := Some (PyFloat (15 # 2))]> three_days.

Definition halves' : list (option number) :=
  <[9%nat := Some (PyFloat (30 # 4))]> three_days.

(** ** The page layout and the callback registration (lines 41-91) *)

(** Dash components, without their [style] attributes. *)
Inductive component : Type :=
  | html_Div (id : option string) (children : list component)
  | html_H1 (text : string)
  | html_Label (text : string)
  | dcc_Input (id : string) (type : string) (value : number)
  | html_Button (text : string) (id : string) (n_clicks : Z)
  | html_Hr
  | dcc_Graph (id : string).

(** One labelled input field per item of [default_values] (lines 45-49). *)
Definition input_field (kv : string * number) : component :=
  html_Div None [ html_Label (kv.1 ++ ":"); dcc_Input kv.1 "number" kv.2 ].

(** [app.layout] *)
Definition app_layout : component :=
  html_Div None
    [ html_H1 "Shrimp Farming Forecast Dashboard";
      html_Div None (input_field <$> default_values);
      html_Div None [ html_Button "Submit" "submit-val" 0 ];
      html_Hr;
      html_Div None [ dcc_Graph "survival-rate-plot"; dcc_Graph "abw-plot" ];
      html_Div None [ dcc_Graph "biomass-plot"; dcc_Graph "revenue-plot" ];
      html_Div (Some "revenue-output") [] ].

(** A callback dependency: a component id and one of its properties. *)
Definition dependency : Type := (string * string)%type.

(** The [Output] list of the decorator (lines 82-88). *)
Definition callback_outputs : list dependency :=
  [ ("survival-rate-plot", "figure"); ("abw-plot", "figure");
    ("biomass-plot", "figure"); ("revenue-plot", "figure");
    ("revenue-output", "children") ].

(** The two [Input] lists of the decorator (lines 89-90). *)
Definition click_inputs : list dependency := [ ("submit-val", "n_clicks") ].

Definition field_inputs : list dependency :=
  (fun key => (key, "value")) <$> dict_keys default_values.

(** The [dcc.Input] fields of a component tree, in document order, each with
    its id and initial value. *)
Fixpoint input_fields (c : component) : list (string * number) :=
  match c with
  | html_Div _ children => mjoin (input_fields <$> children)
  | dcc_Input id _ value => [(id, value)]
  | _ => []
  end.

(** The ids of a component tree, in document order. *)
Fixpoint component_ids (c : component) : list string :=
  match c with
  | html_Div id children =>
      from_option (fun i => [i]) [] id ++ mjoin (component_ids <$> children)
  | dcc_Input id _ _ => [id]
  | html_Button _ id _ => [id]
  | dcc_Graph id => [id]
  | _ => []
  end.

(** Dash calls a callback with the current value of every declared input, in
    the order of declaration: the click count, then the [value] of each
    field. [field_value] gives the current value of the field with a given
    id. *)
Definition field_arguments (field_value : string -> option number)
  : list (option number) :=
  (fun dep : dependency => field_value dep.1) <$> field_inputs.

(** The values the fields hold when the page is first shown. *)
Definition initial_values : list (option number) :=
  (fun kv : string * number => Some kv.2) <$> input_fields app_layout.

(** Two submitted values have the same integer part (or are both missing). *)
Definition same_int (val val' : option number) : Prop :=
  match val, val' with
  | Some v, Some v' => py_int v = py_int v'
  | None, None => True
  | _, _ => False
  end.

(** The outputs of two runs that do not depend on the survival-rate
    predictions agree, and so do the exceptions. *)
Definition same_yield (r r' : result Outputs) : Prop :=
  match r, r' with
  | Ok o, Ok o' =>
      abw_figure o = abw_figure o' /\ biomass_figure o = biomass_figure o'
      /\ revenue_figure o = revenue_figure o'
      /\ revenue_output o = revenue_output o'
  | Raise e, Raise e' => e = e'
  | _, _ => False
  end.

(** As [three_days], with a negative horizon. *)
Definition negative_days : list (option number) :=
  <[0%nat := Some (PyInt (-4))]> three_days.

(** ** Auxiliary results *)

(** *** The operations on sample values *)

Example format_thousands : format_comma_2f 1234567.875 = "1,234,567.88".
Proof. reflexivity. Qed.

Example format_negative : format_comma_2f (-2500.5) = "-2,500.50".
Proof. reflexivity. Qed.

Example format_zero : format_comma_2f 0 = "0.00".
Proof. reflexivity. Qed.

Example arange_three : np_arange 1 (py_succ (PyInt 3)) = [1; 2; 3].
Proof. reflexivity. Qed.

Example arange_negative : np_arange 1 (py_succ (PyInt (-4))) = [].
Proof. reflexivity. Qed.

Example int_truncates : py_int (PyFloat (-7.9)) = -7 /\ py_int (PyFloat 7.9) = 7.
Proof. split; reflexivity. Qed.

Example cumsum_four : cumsum [1; 2; 3; 4]%Q = [1; 1 + 2; 1 + 2 + 3; 1 + 2 + 3 + 4]%Q.
Proof. reflexivity. Qed.

(** A submission cut short leaves keys unbound: the first missing subscript
    raises [KeyError]. *)
Example short_submission :
  update_output stub_sr stub_abw stub_str_float 0 (take 5 three_days)
  = Raise (KeyError "total_weight").
Proof. vm_compute. reflexivity. Qed.

(** *** The error monad and dictionaries *)

Lemma mapM_Ok {A B} (f : A -> result B) (l : list A) (k : list B) :
  Forall2 (fun a b => f a = Ok b) l k -> mapM f l = Ok k.
Proof.
  induction 1 as [|a b l k Hab _ IH]; [reflexivity|].
  cbn. rewrite Hab. cbn. rewrite IH. reflexivity.
Qed.

Lemma mapM_Ok_fmap {A B} (f : A -> result B) (g : A -> B) (l : list A) :
  Forall (fun a => f a = Ok (g a)) l -> mapM f l = Ok (g <$> l).
Proof.
  intros H. apply mapM_Ok. induction H; constructor; auto.
Qed.

Lemma dict_of_snoc l k v : dict_of (l ++ [(k, v)]) = <[k := v]> (dict_of l).
Proof. unfold dict_of. rewrite foldl_app. reflexivity. Qed.

Lemma dict_of_lookup l k v : NoDup l.*1 -> (k, v) ∈ l -> dict_of l !! k = Some v.
Proof.
  induction l as [|[k' v'] l IH] using rev_ind; intros Hnd Hin.
  - by apply elem_of_nil in Hin.
  - rewrite dict_of_snoc. rewrite fmap_app in Hnd. cbn in Hnd.
    apply NoDup_app in Hnd as (Hnd & Hfresh & _).
    apply elem_of_app in Hin as [Hin|Hin].
    + rewrite lookup_insert_ne; [by apply IH|].
      intros ->. apply (Hfresh k); [|by apply list_elem_of_singleton].
      apply list_elem_of_fmap. by exists (k, v).
    + apply list_elem_of_singleton in Hin. injection Hin as -> ->.
      apply lookup_insert_eq.
Qed.

Lemma default_keys_NoDup : NoDup (dict_keys default_values).
Proof. apply (bool_decide_unpack _). vm_compute. reflexivity. Qed.

Lemma default_lookup key dflt :
  (key, dflt) ∈ default_values -> getitem (dict_of default_values) key = Ok dflt.
Proof.
  intros H. unfold getitem.
  by rewrite (dict_of_lookup _ _ _ default_keys_NoDup H).
Qed.

Lemma coerce_stored key dflt val :
  (key, dflt) ∈ default_values -> coerce key val = Ok (stored dflt val).
Proof. intros H. destruct val; [reflexivity|]. by apply default_lookup. Qed.

Lemma build_inputs_eq vals : build_inputs vals = Ok (dict_of (entries_of vals)).
Proof.
  unfold build_inputs, entries_of, dict_keys.
  assert (Hall : Forall (fun kd => kd ∈ default_values) default_values)
    by (apply Forall_forall; auto).
  revert Hall. generalize default_values at 2 3 4 as l.
  intros l Hl.
  enough (mapM (fun kv : string * option number => v ← coerce kv.1 kv.2; mret (kv.1, v))
            (zip l.*1 vals)
          = Ok (zip_with (fun kd val => (kd.1, stored kd.2 val)) l vals)) as ->
    by reflexivity.
  apply mapM_Ok. revert vals.
  induction Hl as [|[key dflt] l Hin _ IH]; intros [|val vals]; cbn; try constructor.
  - change (coerce key val ≫= (fun v : number => mret (key, v)) = Ok (key, stored dflt val)).
    rewrite (coerce_stored key dflt val Hin). reflexivity.
  - apply IH.
Qed.

Lemma entries_keys vals :
  (entries_of vals).*1 = take (length vals) (dict_keys default_values).
Proof.
  unfold entries_of, dict_keys. generalize default_values as l. intros l.
  revert vals.
  induction l as [|kd l IH]; intros [|v vals]; cbn; try reflexivity.
  f_equal. apply IH.
Qed.

Lemma inputs_lookup vals (i : nat) key dflt val :
  default_values !! i = Some (key, dflt) -> vals !! i = Some val ->
  dict_of (entries_of vals) !! key = Some (stored dflt val).
Proof.
  intros Hd Hv. apply dict_of_lookup.
  - rewrite entries_keys. eapply sublist_NoDup; [apply default_keys_NoDup|apply sublist_take].
  - apply list_elem_of_lookup. exists i. unfold entries_of.
    rewrite lookup_zip_with. rewrite Hd, Hv. reflexivity.
Qed.

Lemma getitem_Some m key v : m !! key = Some v -> getitem m key = Ok v.
Proof. unfold getitem. by intros ->. Qed.

Lemma feature_row_ok fields m day :
  Forall (fun key => is_Some (m !! key)) fields ->
  feature_row fields m day = Ok (inject_Z day :: (value_of m <$> fields)).
Proof.
  intros H. unfold feature_row.
  assert (Hm : mapM (getitem m) fields
               = Ok ((fun key => default (PyInt 0) (m !! key)) <$> fields)).
  { apply mapM_Ok_fmap. eapply Forall_impl; [exact H|].
    intros key [v Hv]. cbn. rewrite Hv. by apply getitem_Some. }
  rewrite Hm. cbn. do 2 f_equal. rewrite <- list_fmap_compose.
  apply Forall_fmap_ext. eapply Forall_impl; [exact H|].
  intros key [v Hv]. unfold value_of. cbn. by rewrite Hv.
Qed.

Lemma features_ok fields m days :
  Forall (fun key => is_Some (m !! key)) fields ->
  mapM (feature_row fields m) days = Ok (rows fields m days).
Proof.
  intros H. apply mapM_Ok_fmap. apply Forall_forall. intros day _.
  by apply feature_row_ok.
Qed.

Lemma complete_inputs vals :
  (19 <= length vals)%nat -> complete (dict_of (entries_of vals)).
Proof.
  intros Hlen key Hkey. unfold dict_keys in Hkey.
  apply list_elem_of_fmap in Hkey as ([key' dflt] & -> & Hin).
  apply list_elem_of_lookup in Hin as [i Hi].
  assert (Hi' : (i < 19)%nat) by (apply lookup_lt_Some in Hi; exact Hi).
  destruct (lookup_lt_is_Some_2 vals i) as [val Hval]; [lia|].
  change (is_Some (dict_of (entries_of vals) !! key')).
  rewrite (inputs_lookup _ _ _ _ _ Hi Hval). by eexists.
Qed.

Lemma complete_fields m :
  complete m ->
  Forall (fun key => is_Some (m !! key)) sr_fields
  /\ Forall (fun key => is_Some (m !! key)) abw_fields.
Proof.
  intros Hc. split; apply Forall_forall; intros key Hkey; apply Hc;
    revert key Hkey; apply Forall_forall; apply (bool_decide_unpack _);
    vm_compute; reflexivity.
Qed.

Lemma bind_Ok {A B} (a : A) (f : A -> result B) : Ok a ≫= f = f a.
Proof. reflexivity. Qed.

Lemma getlast_Some a v : last a = Some v -> getlast a = Ok v.
Proof. unfold getlast. by intros ->. Qed.

Lemma getlast_None a : last a = None -> getlast a = Raise IndexError.
Proof. unfold getlast. by intros ->. Qed.

Section Forecast.
Variables model_sr model_abw : list (list Q) -> list Q.
Variable py_str_float : Q -> string.

Local Abbreviation run := (update_output model_sr model_abw py_str_float).

Lemma update_output_steps n vals h ts p :
  let m := dict_of (entries_of vals) in
  let days := np_arange 1 (py_succ h) in
  let abw := model_abw (rows abw_fields m days) in
  let revenue := cumsum (daily_revenue_idr (daily_biomass abw ts) p) in
  (19 <= length vals)%nat ->
  m !! "days_until_harvest" = Some h ->
  m !! "total_shrimp" = Some ts ->
  m !! "price_per_kg" = Some p ->
  match last revenue with
  | None => run n vals = Raise IndexError
  | Some final =>
      exists o, run n vals = Ok o
        /\ fig_x (sr_figure o) = days /\ fig_x (abw_figure o) = days
        /\ fig_x (biomass_figure o) = days /\ fig_x (revenue_figure o) = days
        /\ fig_y (sr_figure o) = model_sr (rows sr_fields m days)
        /\ fig_y (abw_figure o) = abw
        /\ fig_y (biomass_figure o) = cumsum (daily_biomass abw ts)
        /\ fig_y (revenue_figure o) = revenue
        /\ revenue_output o
           = ("Forecasted Revenue by Day " ++ py_str py_str_float h ++ ": IDR "
              ++ format_comma_2f final)%string
  end.
Proof.
  intros m days abw revenue Hlen Hh Hts Hp.
  destruct (complete_fields m (complete_inputs vals Hlen)) as [Hsr Habw].
  unfold update_output. rewrite build_inputs_eq, bind_Ok.
  fold m. rewrite (getitem_Some _ _ _ Hh), bind_Ok.
  fold days. unfold features_sr, features_abw.
  rewrite (features_ok _ _ days Hsr), bind_Ok.
  rewrite (features_ok _ _ days Habw), bind_Ok.
  fold abw.
  rewrite (getitem_Some _ _ _ Hts), bind_Ok.
  rewrite (getitem_Some _ _ _ Hp), bind_Ok.
  fold revenue.
  destruct (last revenue) as [final|] eqn:Hlast.
  - rewrite (getlast_Some _ _ Hlast), bind_Ok.
    eexists. split; [reflexivity|]. cbn. repeat split; reflexivity.
  - rewrite (getlast_None _ Hlast). reflexivity.
Qed.
End Forecast.

(** *** Running sums *)

Lemma length_cumsum_from acc a : length (cumsum_from acc a) = length a.
Proof. revert acc. induction a as [|v a IH]; intros acc; cbn; [|rewrite IH]; reflexivity. Qed.

Lemma length_cumsum a : length (cumsum a) = length a.
Proof. destruct a as [|v a]; cbn; [|rewrite length_cumsum_from]; reflexivity. Qed.

Lemma cumsum_from_nth acc a (d : nat) :
  (d < length a)%nat ->
  nth d (cumsum_from acc a) 0%Q = foldl Qplus acc (take (S d) a).
Proof.
  revert acc d. induction a as [|v a IH]; intros acc d Hd; cbn in Hd; [lia|].
  destruct d as [|d]; cbn.
  - reflexivity.
  - rewrite IH by lia. reflexivity.
Qed.

Lemma foldl_Qplus_proper acc acc' (l : list Q) :
  acc == acc' -> foldl Qplus acc l == foldl Qplus acc' l.
Proof.
  revert acc acc'. induction l as [|v l IH]; intros acc acc' H; cbn; [exact H|].
  apply IH. rewrite H. reflexivity.
Qed.

Lemma cumsum_nth a (d : nat) :
  (d < length a)%nat -> nth d (cumsum a) 0%Q == running_total a d.
Proof.
  unfold running_total. destruct a as [|v a]; cbn [length]; intros Hd; [lia|].
  change (foldl Qplus 0%Q (take (S d) (v :: a)))
    with (foldl Qplus (0 + v)%Q (take d a)).
  destruct d as [|d].
  - rewrite take_0. cbn. ring.
  - cbn [cumsum nth]. rewrite cumsum_from_nth by lia.
    apply foldl_Qplus_proper. ring.
Qed.

Lemma cumsum_succ a (d : nat) :
  (S d < length a)%nat ->
  nth (S d) (cumsum a) 0%Q == nth d (cumsum a) 0%Q + nth (S d) a 0%Q.
Proof.
  intros Hd. rewrite !cumsum_nth by lia. unfold running_total.
  rewrite (take_S_r a (S d) (nth (S d) a 0%Q)).
  - rewrite foldl_app. cbn. reflexivity.
  - destruct (nth_lookup_or_length a (S d) 0%Q) as [H|H]; [exact H|lia].
Qed.

Lemma last_cumsum a v : last (cumsum a) = Some v -> v == total a.
Proof.
  intros H. rewrite last_lookup, length_cumsum in H.
  destruct a as [|w a]; [discriminate H|].
  assert (Hd : (pred (length (w :: a)) < length (w :: a))%nat) by (cbn; lia).
  rewrite <- (nth_lookup_Some _ _ 0%Q _ H), (cumsum_nth _ _ Hd).
  unfold running_total, total. rewrite firstn_all2 by (cbn; lia). reflexivity.
Qed.

Lemma foldl_Qplus_scale (c1 c2 : Q) acc (l : list Q) :
  foldl Qplus (acc * c1 * c2)%Q ((fun b => b * c1 * c2)%Q <$> l)
  == foldl Qplus acc l * c1 * c2.
Proof.
  revert acc. induction l as [|v l IH]; intros acc; cbn; [reflexivity|].
  rewrite <- IH. apply foldl_Qplus_proper. ring.
Qed.

Lemma total_daily_revenue daily p :
  total (daily_revenue_idr daily p)
  == total daily * to_Q p * inject_Z usd_to_idr.
Proof.
  unfold total, daily_revenue_idr. rewrite <- foldl_Qplus_scale.
  apply foldl_Qplus_proper. ring.
Qed.

(** *** Truncation *)

Lemma py_int_to_Q v : py_int v = Z.quot (Qnum (to_Q v)) (Zpos (Qden (to_Q v))).
Proof. destruct v as [z|q]; cbn; [|reflexivity]. symmetry. apply Z.quot_1_r. Qed.

Lemma quot_Qfloor (q : Q) :
  Z.quot (Qnum q) (Zpos (Qden q))
  = if (0 <=? Qnum q)%Z then Qfloor q else (- Qfloor (- q))%Z.
Proof.
  destruct q as [n d]. cbn [Qnum Qden Qfloor Qopp].
  destruct (Z.leb_spec 0 n) as [Hn|Hn].
  - apply Z.quot_div_nonneg; lia.
  - rewrite <- (Z.opp_involutive n) at 1. rewrite Z.quot_opp_l by lia.
    f_equal. apply Z.quot_div_nonneg; lia.
Qed.

Lemma py_int_same v v' : to_Q v == to_Q v' -> py_int v = py_int v'.
Proof.
  intros H. rewrite !py_int_to_Q, !quot_Qfloor.
  assert (Hs : (0 <=? Qnum (to_Q v))%Z = (0 <=? Qnum (to_Q v'))%Z).
  { unfold Qeq in H. destruct (Z.leb_spec 0 (Qnum (to_Q v))), (Z.leb_spec 0 (Qnum (to_Q v'))); 
      try reflexivity; nia. }
  rewrite Hs. destruct (0 <=? Qnum (to_Q v'))%Z.
  - apply Qfloor_comp, H.
  - f_equal. apply Qfloor_comp. rewrite H. reflexivity.
Qed.

(** *** The day series *)

Lemma np_arange_days (N : Z) :
  np_arange 1 (py_succ (PyInt N)) = (fun i : nat => 1 + Z.of_nat i) <$> seq 0 (Z.to_nat N).
Proof.
  unfold np_arange. cbn [py_succ to_Q]. do 2 f_equal.
  assert (H : inject_Z (N + 1) - inject_Z 1 == inject_Z N).
  { rewrite inject_Z_plus. ring. }
  rewrite (Qceiling_comp _ _ H), Qceiling_Z. reflexivity.
Qed.

Lemma length_np_arange (N : Z) :
  length (np_arange 1 (py_succ (PyInt N))) = Z.to_nat N.
Proof. rewrite np_arange_days, length_fmap, length_seq. reflexivity. Qed.

Lemma np_arange_lookup (N : Z) (i : nat) :
  (i < Z.to_nat N)%nat ->
  np_arange 1 (py_succ (PyInt N)) !! i = Some (1 + Z.of_nat i).
Proof.
  intros Hi. rewrite np_arange_days, list_lookup_fmap, lookup_seq_lt by exact Hi.
  reflexivity.
Qed.

(** *** The inputs of a full submission *)

Lemma lookup_horizon vals :
  (1 <= length vals)%nat ->
  dict_of (entries_of vals) !! "days_until_harvest" = Some (PyInt (horizon_of vals)).
Proof.
  intros Hlen. destruct vals as [|val vals]; [cbn in Hlen; lia|].
  rewrite (inputs_lookup (val :: vals) 0 "days_until_harvest" (PyInt 60) val)
    by reflexivity.
  destruct val; reflexivity.
Qed.

Lemma lookup_total_shrimp vals :
  (19 <= length vals)%nat ->
  exists val, vals !! 4%nat = Some val
    /\ dict_of (entries_of vals) !! "total_shrimp" = Some (stored (PyInt 95000) val).
Proof.
  intros Hlen. destruct (lookup_lt_is_Some_2 vals 4) as [val Hval]; [lia|].
  exists val. split; [exact Hval|].
  apply (inputs_lookup vals 4); [reflexivity|exact Hval].
Qed.

Lemma lookup_price_per_kg vals :
  (19 <= length vals)%nat ->
  exists val, vals !! 18%nat = Some val
    /\ dict_of (entries_of vals) !! "price_per_kg" = Some (stored (PyInt 12) val).
Proof.
  intros Hlen. destruct (lookup_lt_is_Some_2 vals 18) as [val Hval]; [lia|].
  exists val. split; [exact Hval|].
  apply (inputs_lookup vals 18); [reflexivity|exact Hval].
Qed.

Lemma nth_fmap_lt {A B} (f : A -> B) (l : list A) (d : nat) (a : A) (b : B) :
  (d < length l)%nat -> nth d (f <$> l) b = f (nth d l a).
Proof.
  intros Hd. destruct (lookup_lt_is_Some_2 l d Hd) as [x Hx].
  rewrite (nth_lookup_Some _ _ a _ Hx).
  apply nth_lookup_Some. rewrite list_lookup_fmap, Hx. reflexivity.
Qed.

Section Properties.
Variables model_sr model_abw : list (list Q) -> list Q.
Variable py_str_float : Q -> string.

Local Abbreviation run := (update_output model_sr model_abw py_str_float).

(** What a full submission evaluates to. *)
Lemma update_output_full n vals :
  let m := dict_of (entries_of vals) in
  let days := np_arange 1 (py_succ (PyInt (horizon_of vals))) in
  (19 <= length vals)%nat ->
  exists ts p,
    m !! "total_shrimp" = Some ts /\ m !! "price_per_kg" = Some p /\
    let abw := model_abw (rows abw_fields m days) in
    let revenue := cumsum (daily_revenue_idr (daily_biomass abw ts) p) in
    match last revenue with
    | None => run n vals = Raise IndexError
    | Some final =>
        exists o, run n vals = Ok o
          /\ fig_x (sr_figure o) = days /\ fig_x (abw_figure o) = days
          /\ fig_x (biomass_figure o) = days /\ fig_x (revenue_figure o) = days
          /\ fig_y (sr_figure o) = model_sr (rows sr_fields m days)
          /\ fig_y (abw_figure o) = abw
          /\ fig_y (biomass_figure o) = cumsum (daily_biomass abw ts)
          /\ fig_y (revenue_figure o) = revenue
          /\ revenue_output o
             = ("Forecasted Revenue by Day " ++ py_str_int (horizon_of vals)
                ++ ": IDR " ++ format_comma_2f final)%string
    end.
Proof.
  intros m days Hlen.
  destruct (lookup_total_shrimp vals Hlen) as (v4 & _ & Hts).
  destruct (lookup_price_per_kg vals Hlen) as (v18 & _ & Hp).
  eexists _, _. split; [exact Hts|]. split; [exact Hp|].
  apply (update_output_steps model_sr model_abw py_str_float n vals
           (PyInt (horizon_of vals)) _ _ Hlen);
    [apply lookup_horizon; lia|exact Hts|exact Hp].
Qed.

(** What a full submission with a horizon of at least one day returns, in
    terms of the inputs, the day series and the two predictors. *)
Lemma update_output_returns n vals :
  let m := dict_of (entries_of vals) in
  let days := np_arange 1 (py_succ (PyInt (horizon_of vals))) in
  let abw := model_abw (rows abw_fields m days) in
  one_per_row model_abw ->
  (19 <= length vals)%nat ->
  1 <= horizon_of vals ->
  exists o ts p final,
    run n vals = Ok o
    /\ m !! "total_shrimp" = Some ts /\ m !! "price_per_kg" = Some p
    /\ features_sr m days = Ok (rows sr_fields m days)
    /\ features_abw m days = Ok (rows abw_fields m days)
    /\ length abw = Z.to_nat (horizon_of vals)
    /\ fig_x (sr_figure o) = days /\ fig_x (abw_figure o) = days
    /\ fig_x (biomass_figure o) = days /\ fig_x (revenue_figure o) = days
    /\ fig_y (sr_figure o) = model_sr (rows sr_fields m days)
    /\ fig_y (abw_figure o) = abw
    /\ fig_y (biomass_figure o) = cumsum (daily_biomass abw ts)
    /\ fig_y (revenue_figure o) = cumsum (daily_revenue_idr (daily_biomass abw ts) p)
    /\ last (cumsum (daily_revenue_idr (daily_biomass abw ts) p)) = Some final.
Proof.
  intros m days abw Habw Hlen HN.
  assert (Hlabw : length abw = Z.to_nat (horizon_of vals))
    by (unfold abw, rows; rewrite Habw, length_fmap; apply length_np_arange).
  destruct (update_output_full n vals Hlen) as (ts & p & Hts & Hp & H).
  cbv zeta in H. fold m days abw in Hts, Hp, H.
  destruct (last _) as [final|] eqn:Hlast.
  2:{ exfalso. apply last_None in Hlast. apply (f_equal length) in Hlast.
      rewrite length_cumsum in Hlast. unfold daily_revenue_idr, daily_biomass in Hlast.
      rewrite !length_fmap, Hlabw in Hlast. cbn in Hlast. lia. }
  destruct H as (o & Ho & Hx1 & Hx2 & Hx3 & Hx4 & Hy1 & Hy2 & Hy3 & Hy4 & _).
  destruct (complete_fields m (complete_inputs vals Hlen)) as [Hsr Hab].
  exists o, ts, p, final.
  split; [exact Ho|]. split; [exact Hts|]. split; [exact Hp|].
  split; [apply features_ok, Hsr|]. split; [apply features_ok, Hab|].
  split; [exact Hlabw|].
  repeat (split; [assumption|]). exact Hlast.
Qed.

(** Claim C1. For a full submission within the limits whose horizon is at
    least one day, the callback returns; the body weight predictions are
    those of the predictor on the rows of days 1, ..., [days_until_harvest],
    one per day; and for every day index [d] of the horizon the daily
    biomass is [abw_predictions[d] / 1000 * total_shrimp], the cumulative
    biomass plotted at [d] is the left-to-right running total of the daily
    biomass over days 0..d, and the cumulative revenue plotted at [d] is the
    left-to-right running total of the daily biomass times [price_per_kg]
    times 15000. *)
Theorem aggregator_series n vals :
  one_per_row model_abw ->
  length vals = 19%nat ->
  within_limits vals ->
  1 <= horizon_of vals ->
  exists o inputs total_shrimp price_per_kg X_abw,
    run n vals = Ok o
    /\ build_inputs vals = Ok inputs
    /\ inputs !! "total_shrimp" = Some total_shrimp
    /\ inputs !! "price_per_kg" = Some price_per_kg
    /\ features_abw inputs (np_arange 1 (py_succ (PyInt (horizon_of vals)))) = Ok X_abw
    /\ let abw_predictions := model_abw X_abw in
       let daily_biomass_kg := daily_biomass abw_predictions total_shrimp in
       fig_y (abw_figure o) = abw_predictions
       /\ length abw_predictions = Z.to_nat (horizon_of vals)
       /\ length (fig_y (biomass_figure o)) = Z.to_nat (horizon_of vals)
       /\ length (fig_y (revenue_figure o)) = Z.to_nat (horizon_of vals)
       /\ forall d : nat, (d < Z.to_nat (horizon_of vals))%nat ->
            nth d daily_biomass_kg 0%Q
              == nth d abw_predictions 0%Q / 1000 * to_Q total_shrimp
            /\ nth d (fig_y (biomass_figure o)) 0%Q
               == running_total daily_biomass_kg d
            /\ nth d (fig_y (revenue_figure o)) 0%Q
               == running_total
                    ((fun b => b * to_Q price_per_kg * 15000)%Q <$> daily_biomass_kg) d.
Proof.
  intros Hone Hlen _ HN.
  destruct (update_output_returns n vals Hone) as
    (o & ts & p & final & Ho & Hts & Hp & _ & Hfeat & Hlabw & _ & _ & _ & _ & _
     & Habw & Hbio & Hrev & _); [lia|exact HN|].
  exists o, (dict_of (entries_of vals)), ts, p,
    (rows abw_fields (dict_of (entries_of vals))
            (np_arange 1 (py_succ (PyInt (horizon_of vals))))).
  split; [exact Ho|]. split; [apply build_inputs_eq|].
  split; [exact Hts|]. split; [exact Hp|]. split; [exact Hfeat|].
  intros abw daily. fold abw in Habw, Hbio, Hrev, Hlabw. fold daily in Hbio, Hrev.
  assert (Hldaily : length daily = Z.to_nat (horizon_of vals))
    by (unfold daily, daily_biomass; rewrite length_fmap; exact Hlabw).
  split; [exact Habw|]. split; [exact Hlabw|].
  split; [rewrite Hbio, length_cumsum; exact Hldaily|].
  split; [rewrite Hrev, length_cumsum; unfold daily_revenue_idr;
          rewrite length_fmap; exact Hldaily|].
  intros d Hd. rewrite Hbio, Hrev.
  split; [|split].
  - unfold daily, daily_biomass.
    rewrite (nth_fmap_lt _ _ _ 0%Q) by (rewrite Hlabw; exact Hd). reflexivity.
  - apply cumsum_nth. rewrite Hldaily. exact Hd.
  - apply cumsum_nth. unfold daily_revenue_idr. rewrite length_fmap, Hldaily. exact Hd.
Qed.

(** The forecast exists as soon as the horizon is at least one day. *)
Lemma forecast_defined n vals :
  one_per_row model_abw ->
  (19 <= length vals)%nat ->
  1 <= horizon_of vals ->
  exists o, run n vals = Ok o.
Proof.
  intros Habw Hlen HN.
  destruct (update_output_full n vals Hlen) as (ts & p & _ & _ & H).
  cbv zeta in H. destruct (last _) as [final|] eqn:Hlast.
  - destruct H as (o & Ho & _). exists o. exact Ho.
  - exfalso. apply last_None in Hlast. apply (f_equal length) in Hlast.
    rewrite length_cumsum in Hlast.
    unfold daily_revenue_idr, daily_biomass, rows in Hlast.
    rewrite !length_fmap, Habw, length_fmap, length_np_arange in Hlast.
    cbn in Hlast. lia.
Qed.

(** Claim C2. For a full submission within the limits whose horizon
    [days_until_harvest] is at least one day, and predictors returning one
    prediction per row, the callback returns; the day series is 1, 2, ...,
    [days_until_harvest], of that length; it is the x series of all four
    figures, and the survival rate, body weight, cumulative biomass and
    cumulative revenue series all have its length. *)
Theorem series_lengths n vals :
  one_per_row model_sr ->
  one_per_row model_abw ->
  length vals = 19%nat ->
  within_limits vals ->
  1 <= horizon_of vals ->
  exists inputs o,
    build_inputs vals = Ok inputs
    /\ inputs !! "days_until_harvest" = Some (PyInt (horizon_of vals))
    /\ run n vals = Ok o
    /\ (let days := fig_x (sr_figure o) in
        length days = Z.to_nat (horizon_of vals)
        /\ (forall i : nat, (i < Z.to_nat (horizon_of vals))%nat ->
              days !! i = Some (1 + Z.of_nat i))
        /\ fig_x (abw_figure o) = days
        /\ fig_x (biomass_figure o) = days
        /\ fig_x (revenue_figure o) = days
        /\ length (fig_y (sr_figure o)) = length days
        /\ length (fig_y (abw_figure o)) = length days
        /\ length (fig_y (biomass_figure o)) = length days
        /\ length (fig_y (revenue_figure o)) = length days).
Proof.
  intros Hsr Habw Hlen _ HN.
  destruct (forecast_defined n vals Habw) as [o Ho]; [lia|exact HN|].
  destruct (update_output_full n vals) as (ts & p & _ & _ & H); [lia|].
  cbv zeta in H. destruct (last _) as [final|]; [|congruence].
  destruct H as (o' & Ho' & Hx1 & Hx2 & Hx3 & Hx4 & Hy1 & Hy2 & Hy3 & Hy4 & _).
  assert (o' = o) as -> by congruence.
  exists (dict_of (entries_of vals)), o.
  split; [apply build_inputs_eq|]. split; [apply lookup_horizon; lia|].
  split; [exact Ho|]. cbv zeta.
  rewrite Hx1, Hx2, Hx3, Hx4, Hy1, Hy2, Hy3, Hy4.
  rewrite !length_cumsum. unfold daily_revenue_idr, daily_biomass, rows.
  rewrite !length_fmap, Hsr, Habw, !length_fmap, length_np_arange.
  repeat split; try reflexivity.
  intros i Hi. apply np_arange_lookup. exact Hi.
Qed.

(** Claim C3 (the code departs from it). With [days_until_harvest] equal to
    zero the day series is empty, and the callback does not return outputs:
    the subscript [cumulative_revenue_idr[-1]] raises [IndexError], so there
    are no series and no summary string. *)
Theorem zero_days_raises n vals :
  model_abw [] = [] ->
  length vals = 19%nat ->
  horizon_of vals = 0 ->
  np_arange 1 (py_succ (PyInt (horizon_of vals))) = []
  /\ run n vals = Raise IndexError.
Proof.
  intros Habw Hlen HN.
  assert (Hdays : np_arange 1 (py_succ (PyInt (horizon_of vals))) = [])
    by (rewrite np_arange_days, HN; reflexivity).
  split; [exact Hdays|].
  destruct (update_output_full n vals) as (ts & p & _ & _ & H); [lia|].
  cbv zeta in H. rewrite Hdays in H. unfold rows in H.
  cbn [fmap list_fmap] in H. rewrite Habw in H. exact H.
Qed.

(** Claim C4. For a full submission within the limits whose horizon is at
    least one day (a non-empty forecast), the callback returns, and the last
    entry of its cumulative revenue series equals the left-to-right sum of
    the daily biomass, computed from the predictions on the rows of days 1,
    ..., [days_until_harvest], times [price_per_kg] times 15000: scaling
    every term before summing and scaling the sum agree over exact
    rationals. *)
Theorem final_revenue n vals :
  one_per_row model_abw ->
  length vals = 19%nat ->
  within_limits vals ->
  1 <= horizon_of vals ->
  exists o inputs total_shrimp price_per_kg X_abw final,
    run n vals = Ok o
    /\ build_inputs vals = Ok inputs
    /\ inputs !! "total_shrimp" = Some total_shrimp
    /\ inputs !! "price_per_kg" = Some price_per_kg
    /\ features_abw inputs (np_arange 1 (py_succ (PyInt (horizon_of vals)))) = Ok X_abw
    /\ length (model_abw X_abw) = Z.to_nat (horizon_of vals)
    /\ last (fig_y (revenue_figure o)) = Some final
    /\ final == total (daily_biomass (model_abw X_abw) total_shrimp)
                * to_Q price_per_kg * 15000.
Proof.
  intros Hone Hlen _ HN.
  destruct (update_output_returns n vals Hone) as
    (o & ts & p & final & Ho & Hts & Hp & _ & Hfeat & Hlabw & _ & _ & _ & _ & _
     & _ & _ & Hrev & Hlast); [lia|exact HN|].
  exists o, (dict_of (entries_of vals)), ts, p,
    (rows abw_fields (dict_of (entries_of vals))
            (np_arange 1 (py_succ (PyInt (horizon_of vals))))), final.
  split; [exact Ho|]. split; [apply build_inputs_eq|].
  split; [exact Hts|]. split; [exact Hp|]. split; [exact Hfeat|].
  split; [exact Hlabw|]. rewrite Hrev. split; [exact Hlast|].
  rewrite (last_cumsum _ _ Hlast). apply total_daily_revenue.
Qed.

(** Claim C5, amended with a non-negative shrimp count. When every body
    weight prediction is non-negative and [total_shrimp] is non-negative, the
    cumulative biomass series is non-decreasing from each day to the next. *)
Theorem biomass_monotone n vals o inputs total_shrimp :
  length vals = 19%nat ->
  run n vals = Ok o ->
  build_inputs vals = Ok inputs ->
  inputs !! "total_shrimp" = Some total_shrimp ->
  (0 <= to_Q total_shrimp)%Q ->
  Forall (Qle 0) (fig_y (abw_figure o)) ->
  forall d : nat, (S d < length (fig_y (biomass_figure o)))%nat ->
    (nth d (fig_y (biomass_figure o)) 0
     <= nth (S d) (fig_y (biomass_figure o)) 0)%Q.
Proof.
  intros Hlen Hrun Hin Hts Hpos Habw_pos d Hd.
  rewrite build_inputs_eq in Hin. injection Hin as <-.
  destruct (update_output_full n vals) as (ts & p & Hts' & _ & H); [lia|].
  cbv zeta in H. destruct (last _) as [final|]; [|congruence].
  destruct H as (o' & Ho' & _ & _ & _ & _ & _ & Habw & Hbio & _).
  assert (o' = o) as -> by congruence.
  assert (ts = total_shrimp) as -> by congruence.
  rewrite <- Habw in Hbio. rewrite Hbio in Hd |- *.
  rewrite length_cumsum in Hd.
  rewrite (cumsum_succ _ _ Hd).
  assert (H0 : (0 <= nth (S d) (daily_biomass (fig_y (abw_figure o)) total_shrimp) 0)%Q).
  { unfold daily_biomass in Hd |- *. rewrite length_fmap in Hd.
    rewrite (nth_fmap_lt _ _ _ 0%Q) by exact Hd.
    assert (Ha : (0 <= nth (S d) (fig_y (abw_figure o)) 0)%Q).
    { destruct (lookup_lt_is_Some_2 _ _ Hd) as [a Ha].
      rewrite (nth_lookup_Some _ _ 0%Q _ Ha).
      exact (proj1 (Forall_lookup _ _) Habw_pos _ _ Ha). }
    apply Qmult_le_0_compat; [|exact Hpos].
    apply Qle_shift_div_l; [reflexivity|]. rewrite Qmult_0_l. exact Ha. }
  lra.
Qed.

(** Claim C7. For a full submission within the limits whose horizon is at
    least one day, the callback returns, and its two series of predictions
    are those of the predictors on one row per day 1, ...,
    [days_until_harvest]: the row given to the survival rate model holds
    exactly 17 values in a fixed order, the day followed by sixteen fields
    of the inputs, and the row given to the body weight model holds exactly
    3: the day, [area] and [feed_quantity]. *)
Theorem feature_rows n vals :
  one_per_row model_abw ->
  length vals = 19%nat ->
  within_limits vals ->
  1 <= horizon_of vals ->
  exists o inputs X_sr X_abw,
    run n vals = Ok o
    /\ build_inputs vals = Ok inputs
    /\ features_sr inputs (np_arange 1 (py_succ (PyInt (horizon_of vals)))) = Ok X_sr
    /\ features_abw inputs (np_arange 1 (py_succ (PyInt (horizon_of vals)))) = Ok X_abw
    /\ fig_y (sr_figure o) = model_sr X_sr
    /\ fig_y (abw_figure o) = model_abw X_abw
    /\ length X_sr = Z.to_nat (horizon_of vals)
    /\ length X_abw = Z.to_nat (horizon_of vals)
    /\ forall d : nat, (d < Z.to_nat (horizon_of vals))%nat ->
         X_sr !! d
         = Some [ inject_Z (1 + Z.of_nat d);
                  value_of inputs "total_seed"; value_of inputs "area";
                  value_of inputs "total_shrimp"; value_of inputs "total_weight";
                  value_of inputs "feed_quantity";
                  value_of inputs "morning_temperature";
                  value_of inputs "evening_temperature";
                  value_of inputs "morning_do"; value_of inputs "evening_do";
                  value_of inputs "morning_salinity";
                  value_of inputs "evening_salinity";
                  value_of inputs "morning_pH"; value_of inputs "evening_pH";
                  value_of inputs "nitrate"; value_of inputs "nitrite";
                  value_of inputs "alkalinity" ]
         /\ X_abw !! d
            = Some [ inject_Z (1 + Z.of_nat d); value_of inputs "area";
                     value_of inputs "feed_quantity" ]
         /\ (forall row, X_sr !! d = Some row -> length row = 17%nat)
         /\ (forall row, X_abw !! d = Some row -> length row = 3%nat).
Proof.
  intros Hone Hlen _ HN.
  destruct (update_output_returns n vals Hone) as
    (o & ts & p & final & Ho & _ & _ & Hfsr & Hfabw & _ & _ & _ & _ & _
     & Hy1 & Hy2 & _); [lia|exact HN|].
  set (m := dict_of (entries_of vals)) in *.
  set (days := np_arange 1 (py_succ (PyInt (horizon_of vals)))) in *.
  exists o, m, (rows sr_fields m days), (rows abw_fields m days).
  split; [exact Ho|]. split; [apply build_inputs_eq|].
  split; [exact Hfsr|]. split; [exact Hfabw|].
  split; [exact Hy1|]. split; [exact Hy2|].
  split; [unfold rows, days; rewrite length_fmap; apply length_np_arange|].
  split; [unfold rows, days; rewrite length_fmap; apply length_np_arange|].
  intros d Hd.
  assert (Hday : days !! d = Some (1 + Z.of_nat d))
    by (apply np_arange_lookup; exact Hd).
  assert (Hrow_sr : rows sr_fields m days !! d
                    = Some (inject_Z (1 + Z.of_nat d) :: (value_of m <$> sr_fields)))
    by (unfold rows; rewrite list_lookup_fmap, Hday; reflexivity).
  assert (Hrow_abw : rows abw_fields m days !! d
                     = Some (inject_Z (1 + Z.of_nat d) :: (value_of m <$> abw_fields)))
    by (unfold rows; rewrite list_lookup_fmap, Hday; reflexivity).
  split; [exact Hrow_sr|]. split; [exact Hrow_abw|].
  split; intros row Hrow.
  - rewrite Hrow_sr in Hrow. injection Hrow as <-. reflexivity.
  - rewrite Hrow_abw in Hrow. injection Hrow as <-. reflexivity.
Qed.

(** Claim C8. The callback is a function of the submitted numbers alone: two
    calls whose submissions denote the same numbers field by field, whatever
    the click counts and however the numbers are written, give the same
    result, outputs and summary string included. *)
Theorem forecast_deterministic n n' vals vals' :
  Forall2 same_value vals vals' ->
  run n vals = run n' vals'.
Proof.
  intros Hsame.
  assert (Hentries : entries_of vals = entries_of vals').
  { unfold entries_of. generalize default_values as l.
    induction Hsame as [|val val' vals vals' Hv _ IH]; intros [|[key dflt] l];
      cbn; try reflexivity.
    f_equal; [|apply IH]. f_equal.
    destruct val as [v|], val' as [v'|]; cbn in Hv |- *; try contradiction;
      [|reflexivity].
    f_equal. apply py_int_same, Hv. }
  unfold update_output. rewrite !build_inputs_eq, Hentries. reflexivity.
Qed.

(** Claim C9. Building the inputs of a full submission never fails, and
    every field submitted as [None] is bound to its entry of
    [default_values]. Within the limits and with a horizon of at least one
    day the callback returns, and what it returns is computed from these
    inputs: the predictions are those of the predictors on the rows built
    from them, in which a missing field stands as its default, and the
    biomass and revenue series use their [total_shrimp] and [price_per_kg].
    A missing horizon is the default of 60 days, and is never rejected. *)
Theorem missing_uses_default n vals :
  one_per_row model_abw ->
  length vals = 19%nat ->
  exists inputs,
    build_inputs vals = Ok inputs
    /\ (forall (i : nat) key dflt,
          default_values !! i = Some (key, dflt) ->
          vals !! i = Some None ->
          inputs !! key = Some dflt /\ value_of inputs key = to_Q dflt)
    /\ (within_limits vals ->
        1 <= horizon_of vals ->
        let days := np_arange 1 (py_succ (PyInt (horizon_of vals))) in
        exists o total_shrimp price_per_kg,
          run n vals = Ok o
          /\ inputs !! "total_shrimp" = Some total_shrimp
          /\ inputs !! "price_per_kg" = Some price_per_kg
          /\ features_sr inputs days = Ok (rows sr_fields inputs days)
          /\ features_abw inputs days = Ok (rows abw_fields inputs days)
          /\ fig_x (sr_figure o) = days
          /\ fig_y (sr_figure o) = model_sr (rows sr_fields inputs days)
          /\ fig_y (abw_figure o) = model_abw (rows abw_fields inputs days)
          /\ fig_y (biomass_figure o)
             = cumsum (daily_biomass (fig_y (abw_figure o)) total_shrimp)
          /\ fig_y (revenue_figure o)
             = cumsum (daily_revenue_idr
                         (daily_biomass (fig_y (abw_figure o)) total_shrimp)
                         price_per_kg))
    /\ (vals !! 0%nat = Some None ->
        Forall fits_int64 vals ->
        exists o, run n vals = Ok o /\ length (fig_x (sr_figure o)) = 60%nat).
Proof.
  intros Habw Hlen. exists (dict_of (entries_of vals)).
  split; [apply build_inputs_eq|]. split; [|split].
  - intros i key dflt Hd Hv.
    pose proof (inputs_lookup vals i key dflt None Hd Hv) as Hk.
    split; [exact Hk|]. unfold value_of. rewrite Hk. reflexivity.
  - intros _ HN days.
    destruct (update_output_returns n vals Habw) as
      (o & ts & p & final & Ho & Hts & Hp & Hfsr & Hfabw & _ & Hx1 & _ & _ & _
       & Hy1 & Hy2 & Hy3 & Hy4 & _); [lia|exact HN|].
    rewrite <- Hy2 in Hy3, Hy4. exists o, ts, p.
    repeat (split; [assumption|]). exact Hy4.
  - intros H0 _.
    assert (HN : horizon_of vals = 60)
      by (destruct vals as [|[v|] vals]; try discriminate H0; reflexivity).
    destruct (update_output_returns n vals Habw) as
      (o & ts & p & final & Ho & _ & _ & _ & _ & _ & Hx1 & _); [lia|lia|].
    exists o. split; [exact Ho|].
    rewrite Hx1, length_np_arange, HN. reflexivity.
Qed.

(** Claim C6. With a horizon of 3 days, 100 shrimp, a price of 1 per kilogram
    and body weight predictions 10, 20, 30 grams, the callback returns daily
    biomass 1, 2, 3, cumulative biomass 1, 3, 6, cumulative revenue 15000,
    45000, 90000, and the summary shows the amount 90,000.00. *)
Theorem three_day_scenario n vals inputs :
  length vals = 19%nat ->
  vals !! 0%nat = Some (Some (PyInt 3)) ->
  vals !! 4%nat = Some (Some (PyInt 100)) ->
  vals !! 18%nat = Some (Some (PyInt 1)) ->
  build_inputs vals = Ok inputs ->
  (forall X, features_abw inputs [1; 2; 3] = Ok X -> model_abw X = [10; 20; 30]%Q) ->
  exists o,
    run n vals = Ok o
    /\ fig_x (revenue_figure o) = [1; 2; 3]
    /\ fig_y (abw_figure o) = [10; 20; 30]%Q
    /\ Forall2 Qeq (daily_biomass (fig_y (abw_figure o)) (PyInt 100)) [1; 2; 3]%Q
    /\ Forall2 Qeq (fig_y (biomass_figure o)) [1; 3; 6]%Q
    /\ Forall2 Qeq (fig_y (revenue_figure o)) [15000; 45000; 90000]%Q
    /\ revenue_output o = "Forecasted Revenue by Day 3: IDR 90,000.00"%string.
Proof.
  intros Hlen H0 H4 H18 Hin Hmodel.
  rewrite build_inputs_eq in Hin. injection Hin as <-.
  set (m := dict_of (entries_of vals)) in *.
  assert (HN : horizon_of vals = 3)
    by (destruct vals as [|val vals]; [discriminate H0|];
        injection H0 as ->; reflexivity).
  assert (Hts : m !! "total_shrimp" = Some (PyInt 100))
    by (apply (inputs_lookup vals 4 _ (PyInt 95000) (Some (PyInt 100)));
        [reflexivity|exact H4]).
  assert (Hp : m !! "price_per_kg" = Some (PyInt 1))
    by (apply (inputs_lookup vals 18 _ (PyInt 12) (Some (PyInt 1)));
        [reflexivity|exact H18]).
  destruct (complete_fields m) as [_ Hfields]; [apply complete_inputs; lia|].
  pose proof (Hmodel _ (features_ok abw_fields m [1; 2; 3] Hfields)) as Habw.
  destruct (update_output_full n vals) as (ts & p & Hts' & Hp' & H); [lia|].
  fold m in Hts', Hp', H.
  assert (ts = PyInt 100) as -> by congruence.
  assert (p = PyInt 1) as -> by congruence.
  rewrite HN in H. cbv zeta in H.
  change (np_arange 1 (py_succ (PyInt 3))) with [1; 2; 3] in H.
  rewrite Habw in H.
  change (last (cumsum (daily_revenue_idr (daily_biomass [10; 20; 30]%Q (PyInt 100))
                          (PyInt 1))))
    with (Some (10 / 1000 * 100 * 1 * 15000 + 20 / 1000 * 100 * 1 * 15000
                + 30 / 1000 * 100 * 1 * 15000)%Q) in H.
  destruct H as (o & Ho & _ & _ & _ & Hx & _ & Hy2 & Hy3 & Hy4 & Hout).
  exists o. split; [exact Ho|]. split; [exact Hx|]. split; [exact Hy2|].
  rewrite Hy2, Hy3, Hy4, Hout.
  split; [|split; [|split]].
  - repeat constructor; vm_compute; reflexivity.
  - repeat constructor; vm_compute; reflexivity.
  - repeat constructor; vm_compute; reflexivity.
  - vm_compute. reflexivity.
Qed.
End Properties.

(** The horizon is always a Python int, so the float printer is never
    consulted. *)
Lemma str_float_unused model_sr model_abw (f g : Q -> string) n vals :
  update_output model_sr model_abw f n vals
  = update_output model_sr model_abw g n vals.
Proof.
  unfold update_output. rewrite !build_inputs_eq, !bind_Ok.
  destruct vals as [|val vals]; [reflexivity|].
  rewrite !(getitem_Some _ _ _ (lookup_horizon (val :: vals) ltac:(cbn; lia))).
  reflexivity.
Qed.

(** *** The stub predictors *)

Lemma stub_abw_one_per_row : one_per_row stub_abw.
Proof. intros X. unfold stub_abw. apply length_fmap. Qed.

Lemma stub_sr_one_per_row : one_per_row stub_sr.
Proof. intros X. unfold stub_sr. apply length_fmap. Qed.

(** Claim C5, as stated for every submission, fails: with a negative shrimp
    count and non-negative body weight predictions the cumulative biomass
    decreases. *)
Lemma biomass_decreases_with_negative_stock :
  ~ (forall model_sr model_abw py_str_float n vals o,
       length vals = 19%nat ->
       update_output model_sr model_abw py_str_float n vals = Ok o ->
       Forall (Qle 0) (fig_y (abw_figure o)) ->
       forall d : nat, (S d < length (fig_y (biomass_figure o)))%nat ->
         (nth d (fig_y (biomass_figure o)) 0
          <= nth (S d) (fig_y (biomass_figure o)) 0)%Q).
Proof.
  intros H.
  destruct (forecast_defined stub_sr stub_abw stub_str_float 0 negative_stock
              stub_abw_one_per_row) as [o Ho];
    [vm_compute; lia|vm_compute; discriminate|].
  specialize (H stub_sr stub_abw stub_str_float 0 negative_stock o eq_refl Ho).
  vm_compute in Ho. injection Ho as <-. cbn [fig_y abw_figure biomass_figure] in H.
  assert (Hpos : Forall (Qle 0) [10 # 1; 20 # 1; 30 # 1])
    by (repeat constructor; discriminate).
  specialize (H Hpos 0%nat). cbn in H. 
  assert (Hle : (1 < 3)%nat) by lia. specialize (H Hle).
  vm_compute in H. apply H. reflexivity.
Qed.



(** *** The sample submissions are within the limits *)

Ltac limits_by_computation :=
  split; [repeat constructor; vm_compute; discriminate|vm_compute; discriminate].

(** ** The properties on the sample submissions *)

Lemma aggregator_series_witness :
  exists o inputs total_shrimp price_per_kg X_abw,
    update_output stub_sr stub_abw stub_str_float 0 three_days = Ok o
    /\ build_inputs three_days = Ok inputs
    /\ inputs !! "total_shrimp" = Some total_shrimp
    /\ inputs !! "price_per_kg" = Some price_per_kg
    /\ features_abw inputs (np_arange 1 (py_succ (PyInt (horizon_of three_days))))
       = Ok X_abw
    /\ let abw_predictions := stub_abw X_abw in
       let daily_biomass_kg := daily_biomass abw_predictions total_shrimp in
       fig_y (abw_figure o) = abw_predictions
       /\ length abw_predictions = Z.to_nat (horizon_of three_days)
       /\ length (fig_y (biomass_figure o)) = Z.to_nat (horizon_of three_days)
       /\ length (fig_y (revenue_figure o)) = Z.to_nat (horizon_of three_days)
       /\ forall d : nat, (d < Z.to_nat (horizon_of three_days))%nat ->
            nth d daily_biomass_kg 0%Q
              == nth d abw_predictions 0%Q / 1000 * to_Q total_shrimp
            /\ nth d (fig_y (biomass_figure o)) 0%Q
               == running_total daily_biomass_kg d
            /\ nth d (fig_y (revenue_figure o)) 0%Q
               == running_total
                    ((fun b => b * to_Q price_per_kg * 15000)%Q <$> daily_biomass_kg) d.
Proof.
  apply (aggregator_series stub_sr stub_abw stub_str_float 0 three_days);
    [exact stub_abw_one_per_row|reflexivity|limits_by_computation
    |vm_compute; discriminate].
Defined.

Lemma series_lengths_witness :
  1 <= horizon_of three_days
  /\ exists inputs o,
      build_inputs three_days = Ok inputs
      /\ inputs !! "days_until_harvest" = Some (PyInt (horizon_of three_days))
      /\ update_output stub_sr stub_abw stub_str_float 0 three_days = Ok o
      /\ (let days := fig_x (sr_figure o) in
          length days = Z.to_nat (horizon_of three_days)
          /\ (forall i : nat, (i < Z.to_nat (horizon_of three_days))%nat ->
                days !! i = Some (1 + Z.of_nat i))
          /\ fig_x (abw_figure o) = days
          /\ fig_x (biomass_figure o) = days
          /\ fig_x (revenue_figure o) = days
          /\ length (fig_y (sr_figure o)) = length days
          /\ length (fig_y (abw_figure o)) = length days
          /\ length (fig_y (biomass_figure o)) = length days
          /\ length (fig_y (revenue_figure o)) = length days).
Proof.
  split; [vm_compute; discriminate|].
  apply (series_lengths stub_sr stub_abw stub_str_float 0 three_days);
    [exact stub_sr_one_per_row|exact stub_abw_one_per_row|reflexivity
    |limits_by_computation|vm_compute; discriminate].
Defined.

Lemma zero_days_raises_witness :
  horizon_of zero_days = 0
  /\ np_arange 1 (py_succ (PyInt (horizon_of zero_days))) = []
  /\ update_output stub_sr stub_abw stub_str_float 0 zero_days = Raise IndexError.
Proof.
  split; [reflexivity|].
  apply (zero_days_raises stub_sr stub_abw stub_str_float 0 zero_days);
    reflexivity.
Defined.

Lemma final_revenue_witness :
  exists o inputs total_shrimp price_per_kg X_abw final,
    update_output stub_sr stub_abw stub_str_float 0 three_days = Ok o
    /\ build_inputs three_days = Ok inputs
    /\ inputs !! "total_shrimp" = Some total_shrimp
    /\ inputs !! "price_per_kg" = Some price_per_kg
    /\ features_abw inputs (np_arange 1 (py_succ (PyInt (horizon_of three_days))))
       = Ok X_abw
    /\ length (stub_abw X_abw) = Z.to_nat (horizon_of three_days)
    /\ last (fig_y (revenue_figure o)) = Some final
    /\ final == total (daily_biomass (stub_abw X_abw) total_shrimp)
                * to_Q price_per_kg * 15000.
Proof.
  apply (final_revenue stub_sr stub_abw stub_str_float 0 three_days);
    [exact stub_abw_one_per_row|reflexivity|limits_by_computation
    |vm_compute; discriminate].
Defined.

Lemma biomass_monotone_witness :
  exists o,
    update_output stub_sr stub_abw stub_str_float 0 three_days = Ok o
    /\ dict_of (entries_of three_days) !! "total_shrimp" = Some (PyInt 100)
    /\ (0 <= to_Q (PyInt 100))%Q
    /\ Forall (Qle 0) (fig_y (abw_figure o))
    /\ forall d : nat, (S d < length (fig_y (biomass_figure o)))%nat ->
         (nth d (fig_y (biomass_figure o)) 0
          <= nth (S d) (fig_y (biomass_figure o)) 0)%Q.
Proof.
  eexists. split; [vm_compute; reflexivity|].
  assert (Hts : dict_of (entries_of three_days) !! "total_shrimp" = Some (PyInt 100))
    by (vm_compute; reflexivity).
  assert (Hpos : (0 <= to_Q (PyInt 100))%Q) by (vm_compute; discriminate).
  split; [exact Hts|]. split; [exact Hpos|].
  match goal with
  | |- Forall _ ?l /\ _ =>
      assert (Habw : Forall (Qle 0) l)
        by (cbn [fig_y abw_figure]; repeat constructor; vm_compute; discriminate)
  end.
  split; [exact Habw|].
  apply (biomass_monotone stub_sr stub_abw stub_str_float 0 three_days _
           (dict_of (entries_of three_days)) (PyInt 100));
    [reflexivity|vm_compute; reflexivity|apply build_inputs_eq|exact Hts
    |exact Hpos|exact Habw].
Defined.

Lemma three_day_scenario_witness :
  exists o,
    update_output stub_sr stub_abw stub_str_float 0 three_days = Ok o
    /\ fig_x (revenue_figure o) = [1; 2; 3]
    /\ fig_y (abw_figure o) = [10; 20; 30]%Q
    /\ Forall2 Qeq (daily_biomass (fig_y (abw_figure o)) (PyInt 100)) [1; 2; 3]%Q
    /\ Forall2 Qeq (fig_y (biomass_figure o)) [1; 3; 6]%Q
    /\ Forall2 Qeq (fig_y (revenue_figure o)) [15000; 45000; 90000]%Q
    /\ revenue_output o = "Forecasted Revenue by Day 3: IDR 90,000.00"%string.
Proof.
  apply (three_day_scenario stub_sr stub_abw stub_str_float 0 three_days
           (dict_of (entries_of three_days)));
    [reflexivity|reflexivity|reflexivity|reflexivity|apply build_inputs_eq|].
  intros X HX. vm_compute in HX. injection HX as <-. vm_compute. reflexivity.
Defined.

Lemma feature_rows_witness :
  exists o inputs X_sr X_abw,
    update_output stub_sr stub_abw stub_str_float 0 three_days = Ok o
    /\ build_inputs three_days = Ok inputs
    /\ features_sr inputs (np_arange 1 (py_succ (PyInt (horizon_of three_days))))
       = Ok X_sr
    /\ features_abw inputs (np_arange 1 (py_succ (PyInt (horizon_of three_days))))
       = Ok X_abw
    /\ fig_y (sr_figure o) = stub_sr X_sr
    /\ fig_y (abw_figure o) = stub_abw X_abw
    /\ length X_sr = Z.to_nat (horizon_of three_days)
    /\ length X_abw = Z.to_nat (horizon_of three_days)
    /\ forall d : nat, (d < Z.to_nat (horizon_of three_days))%nat ->
         X_sr !! d
         = Some [ inject_Z (1 + Z.of_nat d);
                  value_of inputs "total_seed"; value_of inputs "area";
                  value_of inputs "total_shrimp"; value_of inputs "total_weight";
                  value_of inputs "feed_quantity";
                  value_of inputs "morning_temperature";
                  value_of inputs "evening_temperature";
                  value_of inputs "morning_do"; value_of inputs "evening_do";
                  value_of inputs "morning_salinity";
                  value_of inputs "evening_salinity";
                  value_of inputs "morning_pH"; value_of inputs "evening_pH";
                  value_of inputs "nitrate"; value_of inputs "nitrite";
                  value_of inputs "alkalinity" ]
         /\ X_abw !! d
            = Some [ inject_Z (1 + Z.of_nat d); value_of inputs "area";
                     value_of inputs "feed_quantity" ]
         /\ (forall row, X_sr !! d = Some row -> length row = 17%nat)
         /\ (forall row, X_abw !! d = Some row -> length row = 3%nat).
Proof.
  apply (feature_rows stub_sr stub_abw stub_str_float 0 three_days);
    [exact stub_abw_one_per_row|reflexivity|limits_by_computation
    |vm_compute; discriminate].
Defined.

Lemma forecast_deterministic_witness :
  Forall2 same_value halves halves'
  /\ update_output stub_sr stub_abw stub_str_float 0 halves
     = update_output stub_sr stub_abw stub_str_float 7 halves'.
Proof.
  assert (H : Forall2 same_value halves halves')
    by (repeat constructor; vm_compute; reflexivity).
  split; [exact H|].
  apply (forecast_deterministic stub_sr stub_abw stub_str_float 0 7 halves halves' H).
Defined.

Lemma missing_uses_default_witness :
  exists inputs,
    build_inputs all_missing = Ok inputs
    /\ (forall (i : nat) key dflt,
          default_values !! i = Some (key, dflt) ->
          all_missing !! i = Some None ->
          inputs !! key = Some dflt /\ value_of inputs key = to_Q dflt)
    /\ (within_limits all_missing ->
        1 <= horizon_of all_missing ->
        let days := np_arange 1 (py_succ (PyInt (horizon_of all_missing))) in
        exists o total_shrimp price_per_kg,
          update_output stub_sr stub_abw stub_str_float 0 all_missing = Ok o
          /\ inputs !! "total_shrimp" = Some total_shrimp
          /\ inputs !! "price_per_kg" = Some price_per_kg
          /\ features_sr inputs days = Ok (rows sr_fields inputs days)
          /\ features_abw inputs days = Ok (rows abw_fields inputs days)
          /\ fig_x (sr_figure o) = days
          /\ fig_y (sr_figure o) = stub_sr (rows sr_fields inputs days)
          /\ fig_y (abw_figure o) = stub_abw (rows abw_fields inputs days)
          /\ fig_y (biomass_figure o)
             = cumsum (daily_biomass (fig_y (abw_figure o)) total_shrimp)
          /\ fig_y (revenue_figure o)
             = cumsum (daily_revenue_idr
                         (daily_biomass (fig_y (abw_figure o)) total_shrimp)
                         price_per_kg))
    /\ (all_missing !! 0%nat = Some None ->
        Forall fits_int64 all_missing ->
        exists o,
          update_output stub_sr stub_abw stub_str_float 0 all_missing = Ok o
          /\ length (fig_x (sr_figure o)) = 60%nat).
Proof.
  apply (missing_uses_default stub_sr stub_abw stub_str_float 0 all_missing);
    [exact stub_abw_one_per_row|reflexivity].
Defined.

(** * Further properties of the dashboard *)

(** ** Further auxiliary results *)

(** *** Keys a submission leaves unbound *)

Lemma dict_of_lookup_None l k : k ∉ l.*1 -> dict_of l !! k = None.
Proof.
  induction l as [|[k' v'] l IH] using rev_ind; intros Hk.
  - apply lookup_empty.
  - rewrite dict_of_snoc. rewrite fmap_app in Hk. cbn in Hk.
    rewrite lookup_insert_ne.
    + apply IH. intros Hin. apply Hk. apply elem_of_app. by left.
    + intros ->. apply Hk. apply elem_of_app. right. by apply list_elem_of_singleton.
Qed.

Lemma inputs_lookup_absent vals (i : nat) key dflt :
  default_values !! i = Some (key, dflt) -> (length vals <= i)%nat ->
  dict_of (entries_of vals) !! key = None.
Proof.
  intros Hd Hlen. apply dict_of_lookup_None. rewrite entries_keys.
  intros Hin. apply list_elem_of_lookup in Hin as [j Hj].
  apply lookup_take_Some in Hj as [Hj Hlt].
  assert (Hi : dict_keys default_values !! i = Some key).
  { unfold dict_keys. rewrite list_lookup_fmap, Hd. reflexivity. }
  pose proof (NoDup_lookup _ _ _ _ default_keys_NoDup Hj Hi). lia.
Qed.

(** The binding of a key is decided by the value at its position. *)
Lemma inputs_lookup_index vals (i : nat) key dflt :
  default_values !! i = Some (key, dflt) ->
  dict_of (entries_of vals) !! key = stored dflt <$> vals !! i.
Proof.
  intros Hd. destruct (vals !! i) as [val|] eqn:Hv.
  - apply (inputs_lookup _ _ _ _ _ Hd Hv).
  - apply (inputs_lookup_absent _ _ _ _ Hd). by apply lookup_ge_None.
Qed.

(** *** Where an exception comes from *)

Lemma getitem_Raise m key e :
  getitem m key = Raise e -> e = KeyError key /\ m !! key = None.
Proof. unfold getitem. destruct (m !! key); [discriminate|]. intros [= <-]. auto. Qed.

Lemma mapM_Raise {A B} (f : A -> result B) (l : list A) e :
  mapM f l = Raise e -> exists a, a ∈ l /\ f a = Raise e.
Proof.
  induction l as [|a l IH]; cbn; [discriminate|].
  destruct (f a) as [b|e'] eqn:Hfa; cbn.
  - destruct (mapM f l) as [k|e'] eqn:Hl; cbn; [discriminate|].
    intros [= ->]. destruct (IH eq_refl) as (a' & Hin & Ha').
    exists a'. split; [by right|exact Ha'].
  - intros [= ->]. exists a. split; [by left|exact Hfa].
Qed.

Lemma mapM_ext_Forall {A B} (f g : A -> result B) (l : list A) :
  Forall (fun a => f a = g a) l -> mapM f l = mapM g l.
Proof.
  induction 1 as [|a l Ha _ IH]; [reflexivity|].
  cbn. rewrite Ha, IH. reflexivity.
Qed.

Lemma feature_row_Raise fields m day e :
  feature_row fields m day = Raise e ->
  exists key, key ∈ fields /\ e = KeyError key /\ m !! key = None.
Proof.
  unfold feature_row. destruct (mapM (getitem m) fields) as [v|e'] eqn:H; cbn;
    [discriminate|].
  intros [= ->]. apply mapM_Raise in H as (key & Hin & Hkey).
  apply getitem_Raise in Hkey as [-> Hnone]. eauto.
Qed.

(** *** Inputs that agree on the keys the callback reads *)

Lemma feature_row_agree fields (m m' : gmap string number) day :
  Forall (fun key => m !! key = m' !! key) fields ->
  feature_row fields m day = feature_row fields m' day.
Proof.
  intros H. unfold feature_row. f_equal. apply mapM_ext_Forall.
  eapply Forall_impl; [exact H|]. intros key Hkey. unfold getitem. by rewrite Hkey.
Qed.

Lemma rows_agree fields (m m' : gmap string number) days :
  Forall (fun key => m !! key = m' !! key) fields ->
  rows fields m days = rows fields m' days.
Proof.
  intros H. unfold rows. apply list_fmap_ext. intros _ day _. f_equal.
  apply Forall_fmap_ext. eapply Forall_impl; [exact H|].
  intros key Hkey. unfold value_of. by rewrite Hkey.
Qed.

Lemma read_keys_default :
  Forall (fun key => key ∈ dict_keys default_values /\ key <> "cycle_age_days")
    ("days_until_harvest" :: "price_per_kg" :: sr_fields).
Proof.
  apply Forall_forall. intros key Hkey. split.
  - revert key Hkey. apply Forall_forall. apply (bool_decide_unpack _).
    vm_compute. reflexivity.
  - revert key Hkey. apply Forall_forall. apply (bool_decide_unpack _).
    vm_compute. reflexivity.
Qed.

(** *** Running sums of non-negative terms *)

Lemma running_total_scale (c1 c2 : Q) (a : list Q) (d : nat) :
  running_total ((fun b => b * c1 * c2)%Q <$> a) d == running_total a d * c1 * c2.
Proof.
  unfold running_total. rewrite <- fmap_take, <- foldl_Qplus_scale.
  apply foldl_Qplus_proper. ring.
Qed.

Lemma cumsum_nonneg a (d : nat) :
  Forall (Qle 0) a -> (d < length a)%nat -> (0 <= nth d (cumsum a) 0)%Q.
Proof.
  intros Ha. induction d as [|d IH]; intros Hd.
  - destruct a as [|v a]; [cbn in Hd; lia|]. cbn. by inversion Ha.
  - rewrite (cumsum_succ _ _ Hd).
    destruct (lookup_lt_is_Some_2 a (S d) Hd) as [v Hv].
    rewrite (nth_lookup_Some _ _ 0%Q _ Hv).
    pose proof (proj1 (Forall_lookup _ _) Ha _ _ Hv) as Hv0. cbn in Hv0.
    specialize (IH ltac:(lia)). lra.
Qed.

Lemma cumsum_monotone a (d : nat) :
  Forall (Qle 0) a -> (S d < length a)%nat ->
  (nth d (cumsum a) 0 <= nth (S d) (cumsum a) 0)%Q.
Proof.
  intros Ha Hd. rewrite (cumsum_succ _ _ Hd).
  destruct (lookup_lt_is_Some_2 a (S d) Hd) as [v Hv].
  rewrite (nth_lookup_Some _ _ 0%Q _ Hv).
  pose proof (proj1 (Forall_lookup _ _) Ha _ _ Hv) as Hv0. cbn in Hv0. lra.
Qed.

Lemma daily_revenue_nonneg abw ts p :
  Forall (Qle 0) abw -> (0 <= to_Q ts)%Q -> (0 <= to_Q p)%Q ->
  Forall (Qle 0) (daily_revenue_idr (daily_biomass abw ts) p).
Proof.
  intros Habw Hts Hp. unfold daily_revenue_idr, daily_biomass.
  rewrite <- list_fmap_compose. apply Forall_fmap.
  eapply Forall_impl; [exact Habw|]. intros a Ha. cbn.
  assert (H1 : (0 <= a / 1000)%Q)
    by (apply Qle_shift_div_l; [reflexivity|]; rewrite Qmult_0_l; exact Ha).
  assert (H2 : (0 <= a / 1000 * to_Q ts)%Q) by (apply Qmult_le_0_compat; assumption).
  assert (H3 : (0 <= a / 1000 * to_Q ts * to_Q p)%Q) by (apply Qmult_le_0_compat; assumption).
  apply Qmult_le_0_compat; [exact H3|]. vm_compute. discriminate.
Qed.

(** *** The day series of a horizon below one *)

Lemma np_arange_nonpositive (N : Z) :
  N <= 0 -> np_arange 1 (py_succ (PyInt N)) = [].
Proof.
  intros HN. rewrite np_arange_days.
  replace (Z.to_nat N) with 0%nat by lia. reflexivity.
Qed.

(** *** The layout *)

Lemma input_fields_of_fields (d : list (string * number)) :
  mjoin (input_fields <$> (input_field <$> d)) = d.
Proof.
  induction d as [|[key value] d IH]; [reflexivity|].
  cbn. f_equal. exact IH.
Qed.

Lemma input_fields_layout : input_fields app_layout = default_values.
Proof.
  unfold app_layout. cbn [input_fields fmap list_fmap mjoin list_join].
  rewrite input_fields_of_fields. apply app_nil_r.
Qed.

Lemma field_arguments_lookup field_value (i : nat) key dflt :
  default_values !! i = Some (key, dflt) ->
  field_arguments field_value !! i = Some (field_value key).
Proof.
  intros Hd. unfold field_arguments, field_inputs, dict_keys.
  rewrite !list_lookup_fmap, Hd. reflexivity.
Qed.

(** ** What the callback reads and what it ignores *)

Section Dependence.
Variables model_sr model_abw : list (list Q) -> list Q.
Variable py_str_float : Q -> string.

Local Abbreviation run := (update_output model_sr model_abw py_str_float).

(** The callback reads its inputs only at the horizon, the price and the
    sixteen fields of the survival-rate rows. *)
Lemma update_output_agree n n' vals vals' :
  Forall (fun key => dict_of (entries_of vals) !! key = dict_of (entries_of vals') !! key)
    ("days_until_harvest" :: "price_per_kg" :: sr_fields) ->
  run n vals = run n' vals'.
Proof.
  intros H. unfold update_output. rewrite !build_inputs_eq, !bind_Ok.
  set (m := dict_of (entries_of vals)) in *.
  set (m' := dict_of (entries_of vals')) in *.
  assert (Hget : forall key, key ∈ "days_until_harvest" :: "price_per_kg" :: sr_fields ->
                   getitem m key = getitem m' key).
  { intros key Hkey. unfold getitem.
    by rewrite (proj1 (Forall_forall _ _) H key Hkey). }
  assert (Hsr : Forall (fun key => m !! key = m' !! key) sr_fields)
    by (inversion H as [|? ? _ H']; inversion H' as [|? ? _ H'']; exact H'').
  assert (Habw : Forall (fun key => m !! key = m' !! key) abw_fields).
  { apply Forall_forall. intros key Hkey.
    apply (proj1 (Forall_forall _ _) Hsr). revert key Hkey.
    apply Forall_forall. apply (bool_decide_unpack _). vm_compute. reflexivity. }
  rewrite <- (Hget "days_until_harvest") by (apply (bool_decide_unpack _); vm_compute; reflexivity).
  rewrite <- (Hget "total_shrimp") by (apply (bool_decide_unpack _); vm_compute; reflexivity).
  rewrite <- (Hget "price_per_kg") by (apply (bool_decide_unpack _); vm_compute; reflexivity).
  destruct (getitem m "days_until_harvest") as [h|e]; [|reflexivity].
  rewrite !bind_Ok. cbv zeta.
  unfold features_sr, features_abw.
  rewrite <- (mapM_ext_Forall (feature_row sr_fields m) (feature_row sr_fields m'))
    by (apply Forall_forall; intros day _; by apply feature_row_agree).
  rewrite <- (mapM_ext_Forall (feature_row abw_fields m) (feature_row abw_fields m'))
    by (apply Forall_forall; intros day _; by apply feature_row_agree).
  reflexivity.
Qed.

(** The same in terms of the submitted values: only the value stored for the
    positions of those keys matters. *)
Lemma update_output_agree_values n n' vals vals' :
  (forall (i : nat) key dflt,
     default_values !! i = Some (key, dflt) -> key <> "cycle_age_days" ->
     stored dflt <$> vals !! i = stored dflt <$> vals' !! i) ->
  run n vals = run n' vals'.
Proof.
  intros H. apply update_output_agree.
  eapply Forall_impl; [apply read_keys_default|].
  intros key [Hkey Hne]. unfold dict_keys in Hkey.
  apply list_elem_of_fmap in Hkey as ([key' dflt] & -> & Hin).
  apply list_elem_of_lookup in Hin as [i Hi]. cbn in Hne.
  change (dict_of (entries_of vals) !! key' = dict_of (entries_of vals') !! key').
  rewrite !(inputs_lookup_index _ i key' dflt Hi). by apply (H i key' dflt).
Qed.

(** Property X1. The field [cycle_age_days] is collected but never used:
    whatever is submitted for it, and whatever the length of the submission,
    the callback gives the same result, an exception included. *)
Theorem cycle_age_unused n n' vals val :
  update_output model_sr model_abw py_str_float n (<[1%nat := val]> vals)
  = update_output model_sr model_abw py_str_float n' vals.
Proof.
  apply update_output_agree_values. intros i key dflt Hd Hne.
  destruct (decide (i = 1%nat)) as [->|Hi].
  - exfalso. apply Hne. cbn in Hd. by injection Hd as <- _.
  - by rewrite list_lookup_insert_ne.
Qed.

(** Property X2. [zip] stops at the nineteenth key: values submitted beyond
    the nineteenth are ignored. *)
Theorem surplus_values_ignored n n' vals extra :
  (19 <= length vals)%nat ->
  update_output model_sr model_abw py_str_float n (vals ++ extra)
  = update_output model_sr model_abw py_str_float n' vals.
Proof.
  intros Hlen. apply update_output_agree_values. intros i key dflt Hd _.
  apply lookup_lt_Some in Hd. change (length default_values) with 19%nat in Hd.
  rewrite lookup_app_l by lia. reflexivity.
Qed.

(** Property X3. Every submitted value goes through [int]: two submissions
    whose values have the same integer part field by field, and are missing
    at the same fields, give the same result. The fraction typed into a
    field never reaches the forecast. *)
Theorem fractions_ignored n n' vals vals' :
  Forall2 same_int vals vals' ->
  run n vals = run n' vals'.
Proof.
  intros Hsame. apply update_output_agree_values. intros i key dflt _ _.
  destruct (vals !! i) as [val|] eqn:Hv.
  - destruct (Forall2_lookup_l _ _ _ _ _ Hsame Hv) as (val' & -> & Hint).
    cbn. f_equal. destruct val as [v|], val' as [v'|]; cbn in Hint |- *;
      try contradiction; [|reflexivity].
    by rewrite Hint.
  - assert (vals' !! i = None) as ->; [|reflexivity].
    apply lookup_ge_None. rewrite <- (Forall2_length _ _ _ Hsame).
    by apply lookup_ge_None.
Qed.

(** Property X4. The body weight, biomass and revenue figures and the
    summary depend on five inputs only: two full submissions whose inputs
    agree on [days_until_harvest], [area], [feed_quantity], [total_shrimp]
    and [price_per_kg] agree on all of them, and fail alike; the water
    quality fields affect the survival-rate figure alone. *)
Theorem yield_depends_on_five_fields n n' vals vals' inputs inputs' :
  (19 <= length vals)%nat ->
  (19 <= length vals')%nat ->
  build_inputs vals = Ok inputs ->
  build_inputs vals' = Ok inputs' ->
  Forall (fun key => inputs !! key = inputs' !! key)
    [ "days_until_harvest"; "area"; "feed_quantity"; "total_shrimp"; "price_per_kg" ] ->
  same_yield (run n vals) (run n' vals').
Proof.
  intros Hlen Hlen' Hin Hin' Hsame.
  rewrite build_inputs_eq in Hin, Hin'. injection Hin as <-. injection Hin' as <-.
  set (m := dict_of (entries_of vals)) in *.
  set (m' := dict_of (entries_of vals')) in *.
  destruct (complete_fields m (complete_inputs vals Hlen)) as [Hsr Habw].
  destruct (complete_fields m' (complete_inputs vals' Hlen')) as [Hsr' Habw'].
  destruct (lookup_total_shrimp vals Hlen) as (v4 & _ & Hts).
  destruct (lookup_price_per_kg vals Hlen) as (v18 & _ & Hp).
  pose proof (lookup_horizon vals ltac:(lia)) as Hh.
  fold m in Hts, Hp, Hh.
  inversion Hsame as [|? ? Eh H1]; subst.
  inversion H1 as [|? ? Earea H2]; subst.
  inversion H2 as [|? ? Efeed H3]; subst.
  inversion H3 as [|? ? Ets H4]; subst.
  inversion H4 as [|? ? Ep _]; subst.
  unfold update_output. rewrite !build_inputs_eq, !bind_Ok. fold m m'.
  rewrite (getitem_Some m' _ _ (eq_trans (eq_sym Eh) Hh)).
  rewrite (getitem_Some m _ _ Hh), !bind_Ok. cbv zeta.
  unfold features_sr, features_abw.
  rewrite (features_ok _ _ _ Hsr), (features_ok _ _ _ Hsr'), !bind_Ok.
  rewrite (features_ok _ _ _ Habw), (features_ok _ _ _ Habw'), !bind_Ok.
  rewrite <- (rows_agree abw_fields m m') by (repeat constructor; assumption).
  rewrite (getitem_Some m' _ _ (eq_trans (eq_sym Ets) Hts)).
  rewrite (getitem_Some m _ _ Hts), !bind_Ok.
  rewrite (getitem_Some m' _ _ (eq_trans (eq_sym Ep) Hp)).
  rewrite (getitem_Some m _ _ Hp), !bind_Ok.
  destruct (getlast _) as [final|e]; [|reflexivity].
  cbn. repeat split; reflexivity.
Qed.
End Dependence.

(** Property X5. The survival-rate predictions are plotted and nothing
    else: with another survival-rate predictor the body weight, biomass and
    revenue figures and the summary are the same, and so is the exception
    when the callback raises. Biomass and revenue are not scaled by
    survival. *)
Theorem survival_model_unused model_sr model_sr' model_abw py_str_float n n' vals :
  same_yield (update_output model_sr model_abw py_str_float n vals)
             (update_output model_sr' model_abw py_str_float n' vals).
Proof.
  unfold update_output.
  destruct (build_inputs vals) as [inputs|e]; [|reflexivity].
  rewrite !bind_Ok.
  destruct (getitem inputs "days_until_harvest") as [h|e]; [|reflexivity].
  rewrite !bind_Ok. cbv zeta.
  destruct (features_sr inputs _) as [rows_sr|e]; [|reflexivity].
  rewrite !bind_Ok.
  destruct (features_abw inputs _) as [rows_abw|e]; [|reflexivity].
  rewrite !bind_Ok.
  destruct (getitem inputs "total_shrimp") as [ts|e]; [|reflexivity].
  rewrite !bind_Ok.
  destruct (getitem inputs "price_per_kg") as [p|e]; [|reflexivity].
  rewrite !bind_Ok.
  destruct (getlast _) as [final|e]; [|reflexivity].
  cbn. repeat split; reflexivity.
Qed.

(** ** Failures and the revenue curve *)

Section Edges.
Variables model_sr model_abw : list (list Q) -> list Q.
Variable py_str_float : Q -> string.

Local Abbreviation run := (update_output model_sr model_abw py_str_float).

Lemma nonpositive_horizon_raises n vals :
  one_per_row model_abw ->
  (19 <= length vals)%nat ->
  horizon_of vals <= 0 ->
  run n vals = Raise IndexError.
Proof.
  intros Habw Hlen HN.
  destruct (update_output_full model_sr model_abw py_str_float n vals Hlen)
    as (ts & p & _ & _ & H).
  cbv zeta in H. rewrite (np_arange_nonpositive _ HN) in H.
  unfold rows in H. cbn [fmap list_fmap] in H.
  assert (Hnil : model_abw [] = [])
    by (apply length_zero_iff_nil; rewrite Habw; reflexivity).
  rewrite Hnil in H. exact H.
Qed.

(** Property X6. A submission of fewer than nineteen values, within the
    limits and with a horizon of at least one day, never gives a forecast:
    building the inputs succeeds, but some key the callback reads is
    unbound, and the callback raises [KeyError] for it. *)
Theorem short_submission_raises n vals :
  (length vals < 19)%nat ->
  within_limits vals ->
  1 <= horizon_of vals ->
  exists inputs key,
    build_inputs vals = Ok inputs
    /\ inputs !! key = None
    /\ run n vals = Raise (KeyError key).
Proof.
  intros Hlen _ _. exists (dict_of (entries_of vals)).
  assert (Hprice : dict_of (entries_of vals) !! "price_per_kg" = None)
    by (apply (inputs_lookup_absent vals 18 _ (PyInt 12)); [reflexivity|lia]).
  unfold update_output. rewrite build_inputs_eq, bind_Ok.
  set (m := dict_of (entries_of vals)) in *.
  destruct (getitem m "days_until_harvest") as [h|e] eqn:Hh.
  2:{ apply getitem_Raise in Hh as [-> Hnone]. eauto. }
  rewrite bind_Ok. cbv zeta.
  destruct (features_sr m _) as [rows_sr|e] eqn:Hsr.
  2:{ apply mapM_Raise in Hsr as (day & _ & Hrow).
      apply feature_row_Raise in Hrow as (key & _ & -> & Hnone). eauto. }
  rewrite bind_Ok.
  destruct (features_abw m _) as [rows_abw|e] eqn:Habw.
  2:{ apply mapM_Raise in Habw as (day & _ & Hrow).
      apply feature_row_Raise in Hrow as (key & _ & -> & Hnone). eauto. }
  rewrite bind_Ok.
  destruct (getitem m "total_shrimp") as [ts|e] eqn:Hts.
  2:{ apply getitem_Raise in Hts as [-> Hnone]. eauto. }
  rewrite bind_Ok.
  exists "price_per_kg". unfold getitem at 1. rewrite Hprice. auto.
Qed.

(** Property X7. For a full submission within the limits and a body weight
    predictor returning one prediction per row, the callback returns exactly
    when the horizon is at least one day, and raises [IndexError] exactly
    when it is zero or negative; it raises nothing else. *)
Theorem forecast_exactly_when_positive n vals :
  one_per_row model_abw ->
  (19 <= length vals)%nat ->
  within_limits vals ->
  ((exists o, run n vals = Ok o) <-> 1 <= horizon_of vals)
  /\ (run n vals = Raise IndexError <-> horizon_of vals <= 0).
Proof.
  intros Habw Hlen _.
  assert (Hpos : 1 <= horizon_of vals -> exists o, run n vals = Ok o).
  { intros HN. apply forecast_defined; assumption. }
  assert (Hneg : horizon_of vals <= 0 -> run n vals = Raise IndexError)
    by (intros HN; apply nonpositive_horizon_raises; assumption).
  split; split.
  - intros [o Ho]. destruct (Z.le_gt_cases 1 (horizon_of vals)) as [H|H]; [exact H|].
    rewrite Hneg in Ho by lia. discriminate Ho.
  - exact Hpos.
  - intros Hr. destruct (Z.le_gt_cases 1 (horizon_of vals)) as [H|H]; [|lia].
    destruct (Hpos H) as [o Ho]. rewrite Ho in Hr. discriminate Hr.
  - exact Hneg.
Qed.

(** Property X8. The revenue curve is the biomass curve scaled: it has the
    same length, and on every day the cumulative revenue is the cumulative
    biomass times [price_per_kg] times 15000. *)
Theorem revenue_is_scaled_biomass n vals o inputs price_per_kg :
  (19 <= length vals)%nat ->
  run n vals = Ok o ->
  build_inputs vals = Ok inputs ->
  inputs !! "price_per_kg" = Some price_per_kg ->
  length (fig_y (revenue_figure o)) = length (fig_y (biomass_figure o))
  /\ forall d : nat, (d < length (fig_y (biomass_figure o)))%nat ->
       nth d (fig_y (revenue_figure o)) 0%Q
       == nth d (fig_y (biomass_figure o)) 0%Q * to_Q price_per_kg * 15000.
Proof.
  intros Hlen Hrun Hin Hprice.
  rewrite build_inputs_eq in Hin. injection Hin as <-.
  destruct (update_output_full model_sr model_abw py_str_float n vals Hlen)
    as (ts & p & _ & Hp & H).
  cbv zeta in H. destruct (last _) as [final|]; [|congruence].
  destruct H as (o' & Ho' & _ & _ & _ & _ & _ & _ & Hbio & Hrev & _).
  assert (o' = o) as -> by congruence.
  assert (p = price_per_kg) as -> by congruence.
  rewrite Hbio, Hrev. unfold daily_revenue_idr.
  split; [by rewrite !length_cumsum, length_fmap|].
  intros d Hd. rewrite length_cumsum in Hd.
  rewrite !cumsum_nth by (rewrite ?length_fmap; exact Hd).
  apply running_total_scale.
Qed.

(** Property X9. With non-negative body weight predictions, shrimp count
    and price, the cumulative revenue is never negative and never decreases
    from a day to the next. *)
Theorem revenue_monotone n vals o inputs total_shrimp price_per_kg :
  (19 <= length vals)%nat ->
  run n vals = Ok o ->
  build_inputs vals = Ok inputs ->
  inputs !! "total_shrimp" = Some total_shrimp ->
  inputs !! "price_per_kg" = Some price_per_kg ->
  (0 <= to_Q total_shrimp)%Q ->
  (0 <= to_Q price_per_kg)%Q ->
  Forall (Qle 0) (fig_y (abw_figure o)) ->
  forall d : nat, (d < length (fig_y (revenue_figure o)))%nat ->
    (0 <= nth d (fig_y (revenue_figure o)) 0)%Q
    /\ ((S d < length (fig_y (revenue_figure o)))%nat ->
        (nth d (fig_y (revenue_figure o)) 0
         <= nth (S d) (fig_y (revenue_figure o)) 0)%Q).
Proof.
  intros Hlen Hrun Hin Hts Hprice Hts0 Hp0 Habw0 d Hd.
  rewrite build_inputs_eq in Hin. injection Hin as <-.
  destruct (update_output_full model_sr model_abw py_str_float n vals Hlen)
    as (ts & p & Hts' & Hp & H).
  cbv zeta in H. destruct (last _) as [final|]; [|congruence].
  destruct H as (o' & Ho' & _ & _ & _ & _ & _ & Habw & _ & Hrev & _).
  assert (o' = o) as -> by congruence.
  assert (p = price_per_kg) as -> by congruence.
  assert (ts = total_shrimp) as -> by congruence.
  rewrite <- Habw in Hrev. rewrite Hrev in Hd |- *.
  rewrite length_cumsum in Hd |- *.
  pose proof (daily_revenue_nonneg _ _ _ Habw0 Hts0 Hp0) as Hall.
  split.
  - by apply cumsum_nonneg.
  - intros HS. by apply cumsum_monotone.
Qed.
End Edges.

(** ** The layout and the callback registration *)

(** Property X10. The input fields of the layout are the declared inputs of
    the callback, in the same order, nineteen in all, and that is the order
    in which [update_output] pairs the values with the keys: whatever the
    fields hold, the value of the field with id [key] is the one stored for
    [key], or its default when the field is empty. *)
Theorem field_values_reach_inputs field_value :
  (input_fields app_layout).*1 = field_inputs.*1
  /\ length (field_arguments field_value) = 19%nat
  /\ exists inputs,
       build_inputs (field_arguments field_value) = Ok inputs
       /\ forall (i : nat) key dflt,
            default_values !! i = Some (key, dflt) ->
            inputs !! key = Some (stored dflt (field_value key)).
Proof.
  split; [|split].
  - rewrite input_fields_layout. unfold field_inputs, dict_keys.
    generalize default_values as d. intros d.
    induction d as [|kv d IH]; [reflexivity|]. cbn. f_equal. exact IH.
  - unfold field_arguments, field_inputs, dict_keys. rewrite !length_fmap. reflexivity.
  - exists (dict_of (entries_of (field_arguments field_value))).
    split; [apply build_inputs_eq|]. intros i key dflt Hd.
    apply (inputs_lookup _ i key dflt _ Hd).
    by apply (field_arguments_lookup _ _ _ dflt).
Qed.

(** Property X11. The ids of the layout are pairwise distinct, every
    component the callback declares as an output or an input is in the
    layout, and no output is one of the input fields. *)
Theorem callback_ids_in_layout :
  NoDup (component_ids app_layout)
  /\ Forall (fun dep : dependency => dep.1 ∈ component_ids app_layout)
       (callback_outputs ++ click_inputs ++ field_inputs)
  /\ Forall (fun dep : dependency => dep.1 ∉ field_inputs.*1) callback_outputs.
Proof.
  split; [|split]; apply (bool_decide_unpack _); vm_compute; reflexivity.
Qed.

(** Property X12. The fields first hold the entries of [default_values] as
    values, not as missing ones, so submitting the page as first shown puts
    every default through [int]: each key is bound to the integer part of
    its default, and the six fractional defaults are bound to 7, 6, 7, 7, 0
    and 0. A default is used unchanged only for a field left empty. *)
Theorem initial_values_truncated :
  exists inputs,
    build_inputs initial_values = Ok inputs
    /\ (forall (i : nat) key dflt,
          default_values !! i = Some (key, dflt) ->
          inputs !! key = Some (PyInt (py_int dflt)))
    /\ inputs !! "morning_do" = Some (PyInt 7)
    /\ inputs !! "evening_do" = Some (PyInt 6)
    /\ inputs !! "morning_pH" = Some (PyInt 7)
    /\ inputs !! "evening_pH" = Some (PyInt 7)
    /\ inputs !! "nitrate" = Some (PyInt 0)
    /\ inputs !! "nitrite" = Some (PyInt 0).
Proof.
  exists (dict_of (entries_of initial_values)).
  split; [apply build_inputs_eq|].
  assert (H : forall (i : nat) key dflt,
            default_values !! i = Some (key, dflt) ->
            dict_of (entries_of initial_values) !! key = Some (PyInt (py_int dflt))).
  { intros i key dflt Hd.
    apply (inputs_lookup initial_values i key dflt (Some dflt) Hd).
    unfold initial_values. rewrite input_fields_layout, list_lookup_fmap, Hd.
    reflexivity. }
  split; [exact H|].
  split; [apply (H 9%nat _ (PyFloat 7.2)); reflexivity|].
  split; [apply (H 10%nat _ (PyFloat 6.8)); reflexivity|].
  split; [apply (H 13%nat _ (PyFloat 7.8)); reflexivity|].
  split; [apply (H 14%nat _ (PyFloat 7.7)); reflexivity|].
  split; [apply (H 15%nat _ (PyFloat 0.25)); reflexivity|].
  apply (H 16%nat _ (PyFloat 0.02)); reflexivity.
Qed.

(** ** The properties on sample submissions *)

Lemma surplus_values_ignored_witness :
  (19 <= length three_days)%nat
  /\ update_output stub_sr stub_abw stub_str_float 0 (three_days ++ [Some (PyInt 9); None])
     = update_output stub_sr stub_abw stub_str_float 4 three_days.
Proof.
  split; [vm_compute; lia|].
  apply (surplus_values_ignored stub_sr stub_abw stub_str_float 0 4 three_days).
  vm_compute. lia.
Defined.

Lemma fractions_ignored_witness :
  Forall2 same_int typed_morning_do halves
  /\ update_output stub_sr stub_abw stub_str_float 0 typed_morning_do
     = update_output stub_sr stub_abw stub_str_float 2 halves.
Proof.
  assert (H : Forall2 same_int typed_morning_do halves)
    by (repeat constructor).
  split; [exact H|].
  apply (fractions_ignored stub_sr stub_abw stub_str_float 0 2 _ _ H).
Defined.

Lemma yield_depends_on_five_fields_witness :
  dict_of (entries_of three_days) !! "morning_do"
    <> dict_of (entries_of typed_morning_do) !! "morning_do"
  /\ same_yield (update_output stub_sr stub_abw stub_str_float 0 three_days)
                (update_output stub_sr stub_abw stub_str_float 0 typed_morning_do).
Proof.
  split; [vm_compute; discriminate|].
  apply (yield_depends_on_five_fields stub_sr stub_abw stub_str_float 0 0
           three_days typed_morning_do
           (dict_of (entries_of three_days)) (dict_of (entries_of typed_morning_do)));
    [vm_compute; lia|vm_compute; lia|apply build_inputs_eq|apply build_inputs_eq|].
  repeat (constructor; [vm_compute; reflexivity|]). constructor.
Defined.

Lemma short_submission_raises_witness :
  (length (take 5 three_days) < 19)%nat
  /\ exists inputs key,
       build_inputs (take 5 three_days) = Ok inputs
       /\ inputs !! key = None
       /\ update_output stub_sr stub_abw stub_str_float 0 (take 5 three_days)
          = Raise (KeyError key).
Proof.
  split; [vm_compute; lia|].
  apply (short_submission_raises stub_sr stub_abw stub_str_float 0 (take 5 three_days));
    [vm_compute; lia|limits_by_computation|vm_compute; discriminate].
Defined.

Lemma forecast_exactly_when_positive_witness :
  ((exists o, update_output stub_sr stub_abw stub_str_float 0 negative_days = Ok o)
   <-> 1 <= horizon_of negative_days)
  /\ (update_output stub_sr stub_abw stub_str_float 0 negative_days = Raise IndexError
      <-> horizon_of negative_days <= 0).
Proof.
  apply (forecast_exactly_when_positive stub_sr stub_abw stub_str_float 0 negative_days
           stub_abw_one_per_row);
    [vm_compute; lia|limits_by_computation].
Defined.

Lemma revenue_is_scaled_biomass_witness :
  exists o,
    update_output stub_sr stub_abw stub_str_float 0 three_days = Ok o
    /\ length (fig_y (revenue_figure o)) = length (fig_y (biomass_figure o))
    /\ forall d : nat, (d < length (fig_y (biomass_figure o)))%nat ->
         nth d (fig_y (revenue_figure o)) 0%Q
         == nth d (fig_y (biomass_figure o)) 0%Q * to_Q (PyInt 1) * 15000.
Proof.
  eexists. split; [vm_compute; reflexivity|].
  apply (revenue_is_scaled_biomass stub_sr stub_abw stub_str_float 0 three_days _
           (dict_of (entries_of three_days)) (PyInt 1));
    [vm_compute; lia|vm_compute; reflexivity|apply build_inputs_eq|reflexivity].
Defined.

Lemma revenue_monotone_witness :
  exists o,
    update_output stub_sr stub_abw stub_str_float 0 three_days = Ok o
    /\ Forall (Qle 0) (fig_y (abw_figure o))
    /\ forall d : nat, (d < length (fig_y (revenue_figure o)))%nat ->
         (0 <= nth d (fig_y (revenue_figure o)) 0)%Q
         /\ ((S d < length (fig_y (revenue_figure o)))%nat ->
             (nth d (fig_y (revenue_figure o)) 0
              <= nth (S d) (fig_y (revenue_figure o)) 0)%Q).
Proof.
  eexists. split; [vm_compute; reflexivity|].
  match goal with
  | |- Forall _ ?l /\ _ =>
      assert (Habw : Forall (Qle 0) l)
        by (cbn [fig_y abw_figure]; repeat constructor; vm_compute; discriminate)
  end.
  split; [exact Habw|].
  apply (revenue_monotone stub_sr stub_abw stub_str_float 0 three_days _
           (dict_of (entries_of three_days)) (PyInt 100) (PyInt 1));
    [vm_compute; lia|vm_compute; reflexivity|apply build_inputs_eq
    |reflexivity|reflexivity|vm_compute; discriminate|vm_compute; discriminate
    |exact Habw].
Defined.
